(** * Opponent state inference: [ElixirTracker] and [CardCycleTracker]

    A shallow embedding of [src/croverlay/elixir_tracker.py] and
    [src/croverlay/cycle_tracker.py], and of the schema validation and the
    getters of [src/croverlay/config_loader.py].

    Numbers.  Python [float] values are modelled as exact rationals [Q]:
    every finite binary64 value is a rational, comparisons agree with the
    rational order, and the arithmetic is taken without rounding.  NaN,
    the infinities and rounding are outside this model; the only place
    where the source names an infinity, the default [float("-inf")] of
    [dict.get] in the cycle tracker, is a constructor of its own
    ([Py.NegInf]).  Equality of numbers is [Qeq] (written [==]), as Python's
    [==] on floats compares values.

    Rounding decides one of the properties below (two [spend] calls against
    one); for it, [Binary64] replays [spend] on binary64 values.

    Exceptions.  The one exception the two classes can raise is
    [ZeroDivisionError], from the true division in [update_time]; a call
    that raises is [None] and leaves the object as it was.

    Sets.  A Python [set] is a finite set ([gset]) together with an
    iteration order that the language leaves unspecified: the queries that
    iterate over [discovered_cards] take that order as a parameter
    [set_iter], of which only "lists each element once" is assumed. *)

From Stdlib Require Import QArith Qminmax Lqa OrderedTypeEx Floats.
From stdpp Require Import gmap strings list sorting.

#[local] Set Warnings "-clear-no-such-hyp".
#[local] Set Warnings "-register-all".
Local Open Scope Q_scope.

(** ** Python builtins used by the two classes *)

Module Py.

(** [a < b] on numbers, as a boolean. *)
Definition lt (a b : Q) : bool :=
  match a ?= b with Lt => true | _ => false end.

(** [min(a, b)]: the first argument is kept unless the second is strictly
    smaller. *)
Definition min (a b : Q) : Q := if lt b a then b else a.

(** [max(a, b)]: the first argument is kept unless the second is strictly
    greater. *)
Definition max (a b : Q) : Q := if lt a b then b else a.

(** [a / b] on floats raises [ZeroDivisionError] when [b == 0]. *)
Definition truediv (a b : Q) : option Q :=
  if Qeq_bool b 0 then None else Some (a / b).

(** The values of [last_play_time.get(card, float("-inf"))]: a recorded
    timestamp, or the default. *)
Inductive key : Type :=
| NegInf
| Num (t : Q).

(** [a < b] on those values. *)
Definition key_lt (a b : key) : bool :=
  match a, b with
  | NegInf, NegInf => false
  | NegInf, Num _ => true
  | Num _, NegInf => false
  | Num x, Num y => lt x y
  end.

(** [a == b] on those values. *)
Definition key_eqb (a b : key) : bool :=
  match a, b with
  | NegInf, NegInf => true
  | Num x, Num y => Qeq_bool x y
  | _, _ => false
  end.

(** [a < b] on tuples [(key, str)]: the first components decide unless
    they are equal. *)
Definition pair_lt (a b : key * string) : bool :=
  if key_eqb a.1 b.1 then String.ltb a.2 b.2 else key_lt a.1 b.1.

Section Ordering.
Context {A K : Type}.
Variable ltk : K -> K -> bool.
Variable keyf : A -> K.

(** [sorted(iterable, key=keyf)].  Python's sort is stable and compares
    keys with [<] only; it is modelled as an insertion sort, which returns
    a permutation in ascending key order that keeps tied elements in their
    original order ([OrderFacts.sorted_perm], [sorted_sorted] and
    [sorted_stable] below), as list.sort does whenever [<] orders the keys.
    The head of the list comes first in the iteration, so it is placed
    before every element whose key is not strictly smaller. *)
Fixpoint insert_by (x : A) (l : list A) : list A :=
  match l with
  | [] => [x]
  | y :: r => if ltk (keyf y) (keyf x) then y :: insert_by x r
              else x :: y :: r
  end.

Fixpoint sorted (l : list A) : list A :=
  match l with
  | [] => []
  | x :: r => insert_by x (sorted r)
  end.

(** [min(iterable, key=keyf)]: the running minimum is replaced only by an
    item whose key is strictly smaller, so the first minimal item wins.
    [None] is the [ValueError] of an empty iterable. *)
Fixpoint min_from (best : A) (l : list A) : A :=
  match l with
  | [] => best
  | x :: r => if ltk (keyf x) (keyf best) then min_from x r
              else min_from best r
  end.

Definition min_by (l : list A) : option A :=
  match l with
  | [] => None
  | x :: r => Some (min_from x r)
  end.

(** [x] may come before [y] in ascending key order: the key of [y] is not
    strictly smaller. *)
Definition precedes (x y : A) : Prop := ltk (keyf y) (keyf x) = false.
End Ordering.

(** [sorted(l)] on a list of [str]: code-point order. *)
Definition sorted_str (l : list string) : list string :=
  sorted String.ltb (fun card => card) l.

End Py.

(** ** elixir_tracker.py *)

Module Elixir.

Record ElixirTracker : Type := mkElixirTracker {
  single_seconds_per_elixir : Q;
  double_seconds_per_elixir : Q;
  triple_seconds_per_elixir : Q;
  max_elixir : Q;
  current_elixir : Q;
  last_update_timestamp : option Q;
  phase : string
}.

(** [ElixirTracker.__init__] *)
Definition __init__ (single double triple maximum : Q) : ElixirTracker :=
  {| single_seconds_per_elixir := single;
     double_seconds_per_elixir := double;
     triple_seconds_per_elixir := triple;
     max_elixir := maximum;
     current_elixir := 0;
     last_update_timestamp := None;
     phase := "single" |}.

(** [ElixirTracker()] with the default arguments 2.8, 1.4, 0.9 and 10.0. *)
Definition default : ElixirTracker := __init__ 2.8 1.4 0.9 10.

(** Attribute assignments [self.current_elixir = v],
    [self.last_update_timestamp = v] and [self.phase = v]. *)
Definition set_current_elixir (self : ElixirTracker) (v : Q) : ElixirTracker :=
  {| single_seconds_per_elixir := single_seconds_per_elixir self;
     double_seconds_per_elixir := double_seconds_per_elixir self;
     triple_seconds_per_elixir := triple_seconds_per_elixir self;
     max_elixir := max_elixir self;
     current_elixir := v;
     last_update_timestamp := last_update_timestamp self;
     phase := phase self |}.

Definition set_last_update_timestamp (self : ElixirTracker) (v : Q)
  : ElixirTracker :=
  {| single_seconds_per_elixir := single_seconds_per_elixir self;
     double_seconds_per_elixir := double_seconds_per_elixir self;
     triple_seconds_per_elixir := triple_seconds_per_elixir self;
     max_elixir := max_elixir self;
     current_elixir := current_elixir self;
     last_update_timestamp := Some v;
     phase := phase self |}.

Definition set_phase (self : ElixirTracker) (v : string) : ElixirTracker :=
  {| single_seconds_per_elixir := single_seconds_per_elixir self;
     double_seconds_per_elixir := double_seconds_per_elixir self;
     triple_seconds_per_elixir := triple_seconds_per_elixir self;
     max_elixir := max_elixir self;
     current_elixir := current_elixir self;
     last_update_timestamp := last_update_timestamp self;
     phase := v |}.

(** The [if]/[elif]/[else] chain of [update_time] that picks the rate of
    the current phase; an unknown phase falls back to the single rate. *)
Definition seconds_per_elixir (self : ElixirTracker) : Q :=
  if String.eqb (phase self) "single" then single_seconds_per_elixir self
  else if String.eqb (phase self) "double" then double_seconds_per_elixir self
  else if String.eqb (phase self) "triple" then triple_seconds_per_elixir self
  else single_seconds_per_elixir self.

(** [ElixirTracker.update_time]; [None] is [ZeroDivisionError]. *)
Definition update_time (self : ElixirTracker) (now_seconds : Q)
  : option ElixirTracker :=
  match last_update_timestamp self with
  | Some last =>
      let delta_t := now_seconds - last in
      match Py.truediv delta_t (seconds_per_elixir self) with
      | Some elixir_gain =>
          Some (set_last_update_timestamp
                  (set_current_elixir self
                     (Py.min (current_elixir self + elixir_gain)
                             (max_elixir self)))
                  now_seconds)
      | None => None
      end
  | None => Some (set_last_update_timestamp self now_seconds)
  end.

(** [ElixirTracker.spend] *)
Definition spend (self : ElixirTracker) (cost : Q) : ElixirTracker :=
  set_current_elixir self (Py.max 0 (current_elixir self - cost)).

(** [ElixirTracker.set_single_elixir], [set_double_elixir],
    [set_triple_elixir] *)
Definition set_single_elixir (self : ElixirTracker) : ElixirTracker :=
  set_phase self "single".

Definition set_double_elixir (self : ElixirTracker) : ElixirTracker :=
  set_phase self "double".

Definition set_triple_elixir (self : ElixirTracker) : ElixirTracker :=
  set_phase self "triple".

(** [ElixirTracker.adjust] *)
Definition adjust (self : ElixirTracker) (delta : Q) : ElixirTracker :=
  set_current_elixir self
    (Py.max 0 (Py.min (current_elixir self + delta) (max_elixir self))).

(** *** Sequences of calls *)

Inductive call : Type :=
| UpdateTime (now_seconds : Q)
| Spend (cost : Q)
| Adjust (delta : Q)
| SetSingle
| SetDouble
| SetTriple.

(** One method call; [None] when it raises. *)
Definition perform (self : ElixirTracker) (c : call) : option ElixirTracker :=
  match c with
  | UpdateTime now_seconds => update_time self now_seconds
  | Spend cost => Some (spend self cost)
  | Adjust delta => Some (adjust self delta)
  | SetSingle => Some (set_single_elixir self)
  | SetDouble => Some (set_double_elixir self)
  | SetTriple => Some (set_triple_elixir self)
  end.

(** The object after a call: a call that raises has assigned nothing. *)
Definition after (self : ElixirTracker) (c : call) : ElixirTracker :=
  match perform self c with
  | Some self' => self'
  | None => self
  end.

(** The object after a sequence of calls, left to right. *)
Definition run (self : ElixirTracker) (calls : list call) : ElixirTracker :=
  foldl after self calls.

(** The elixir invariant of the data model. *)
Definition in_range (self : ElixirTracker) : Prop :=
  0 <= current_elixir self /\ current_elixir self <= max_elixir self.

(** *** Vocabulary of the specification *)

(** [clamp(x, lo, hi)] in the words of the specification, with the
    library's [Qmin] and [Qmax]. *)
Definition clamp (x lo hi : Q) : Q := Qmax lo (Qmin x hi).

(** Calls within the documented contract: the timestamps passed to
    [update_time] never go back, and no cost is negative.  [last] is the
    timestamp of the previous [update_time], if any. *)
Fixpoint orderly (last : option Q) (calls : list call) : Prop :=
  match calls with
  | [] => True
  | UpdateTime now_seconds :: rest =>
      match last with Some l => l <= now_seconds | None => True end
      /\ orderly (Some now_seconds) rest
  | Spend cost :: rest => 0 <= cost /\ orderly last rest
  | _ :: rest => orderly last rest
  end.

(** A tracker built from a valid configuration (positive rates, a
    non-negative cap) whose elixir is in range. *)
Record sound (self : ElixirTracker) : Prop := mkSound {
  sound_single : 0 < single_seconds_per_elixir self;
  sound_double : 0 < double_seconds_per_elixir self;
  sound_triple : 0 < triple_seconds_per_elixir self;
  sound_max : 0 <= max_elixir self;
  sound_range : in_range self
}.


(** Every attribute but the phase is the same in [before] and [after]. *)
Definition only_phase_changed (before after : ElixirTracker) : Prop :=
  current_elixir after = current_elixir before
  /\ last_update_timestamp after = last_update_timestamp before
  /\ max_elixir after = max_elixir before
  /\ single_seconds_per_elixir after = single_seconds_per_elixir before
  /\ double_seconds_per_elixir after = double_seconds_per_elixir before
  /\ triple_seconds_per_elixir after = triple_seconds_per_elixir before.

End Elixir.

(** *** [spend] on binary64 values

    The assignment of [ElixirTracker.spend], [max(0.0, current - cost)],
    with the arithmetic and the comparison of IEEE 754 binary64. *)

Module Binary64.

Definition max (a b : float) : float := if PrimFloat.ltb a b then b else a.

Definition spend (current_elixir cost : float) : float :=
  max 0%float (PrimFloat.sub current_elixir cost).

(** The binary64 value that the literal [0.3] denotes. *)
Definition three_tenths : float := 0x1.3333333333333p-2%float.

End Binary64.

(** ** cycle_tracker.py *)

Module Cycle.

Record CardPlay : Type := mkCardPlay {
  card_name : string;
  is_evolved : bool;
  timestamp : Q
}.

Record CardCycleTracker : Type := mkCardCycleTracker {
  discovered_cards : gset string;
  play_history : list CardPlay
}.

(** [CardCycleTracker.__init__] *)
Definition __init__ : CardCycleTracker :=
  {| discovered_cards := ∅; play_history := [] |}.

(** [CardCycleTracker.record_play] *)
Definition record_play (self : CardCycleTracker)
    (name : string) (evolved : bool) (t : Q) : CardCycleTracker :=
  let history := play_history self ++ [mkCardPlay name evolved t] in
  if decide (name ∈ discovered_cards self)
  then {| discovered_cards := discovered_cards self;
          play_history := history |}
  else {| discovered_cards := {[name]} ∪ discovered_cards self;
          play_history := history |}.

(** The dictionary built by the loop
    [for play in self.play_history: last_play_time[play.card_name] = play.timestamp]. *)
Definition last_play_time (self : CardCycleTracker) : gmap string Q :=
  foldl (fun (d : gmap string Q) play => <[card_name play := timestamp play]> d)
        ∅ (play_history self).

(** The sort key [lambda card: last_play_time.get(card, float("-inf"))]. *)
Definition recency (self : CardCycleTracker) (card : string) : Py.key :=
  match last_play_time self !! card with
  | Some t => Py.Num t
  | None => Py.NegInf
  end.

(** What is asked of the iteration order of a [set]: every element is
    listed, once. *)
Definition iterates (set_iter : gset string -> list string) : Prop :=
  forall s, set_iter s ≡ₚ elements s.

Section Queries.
(** The order in which iterating over a [set] yields its elements. *)
Variable set_iter : gset string -> list string.

(** [CardCycleTracker.get_discovered_deck] *)
Definition get_discovered_deck (self : CardCycleTracker) : list string :=
  Py.sorted_str (set_iter (discovered_cards self)).

(** [CardCycleTracker.get_inferred_hand] *)
Definition get_inferred_hand (self : CardCycleTracker) : list string :=
  match play_history self with
  | [] => []
  | _ :: _ =>
      if (size (discovered_cards self) <? 4)%nat
      then Py.sorted_str (set_iter (discovered_cards self))
      else
        let cards_by_recency :=
          Py.sorted Py.key_lt (recency self)
                    (set_iter (discovered_cards self)) in
        take 4 cards_by_recency
  end.

(** [CardCycleTracker.get_inferred_next_card] *)
Definition get_inferred_next_card (self : CardCycleTracker)
  : option string :=
  match play_history self with
  | [] => None
  | _ :: _ =>
      if (size (discovered_cards self) <? 5)%nat
      then None
      else
        let inferred_hand := get_inferred_hand self in
        let cards_not_in_hand :=
          filter (fun card => card ∉ inferred_hand)
                 (set_iter (discovered_cards self)) in
        match cards_not_in_hand with
        | [] => None
        | _ :: _ => Py.min_by Py.key_lt (recency self) cards_not_in_hand
        end
  end.
End Queries.

(** *** Sequences of [record_play] calls *)

(** The arguments of one call, as a [CardPlay]. *)
Definition record (self : CardCycleTracker) (p : CardPlay)
  : CardCycleTracker :=
  record_play self (card_name p) (is_evolved p) (timestamp p).

Definition run (self : CardCycleTracker) (plays : list CardPlay)
  : CardCycleTracker :=
  foldl record self plays.

(** The trackers a caller can obtain: a fresh one, and the result of
    [record_play] on one it already has. *)
Inductive reachable : CardCycleTracker -> Prop :=
| reachable_init : reachable __init__
| reachable_record_play self name evolved t :
    reachable self -> reachable (record_play self name evolved t).

(** *** Vocabulary of the specification *)

(** What a play says once its [is_evolved] flag is ignored. *)
Definition unflagged (p : CardPlay) : string * Q :=
  (card_name p, timestamp p).

(** The last-played timestamp of a card: the timestamp of the last entry
    of the history that names it. *)
Definition last_played (self : CardCycleTracker) (card : string) : option Q :=
  timestamp <$> last (filter (fun play => card_name play = card)
                             (play_history self)).

(** The ordering key [(last_played_timestamp, card_identifier)]. *)
Definition ranking_key (self : CardCycleTracker) (card : string)
  : Py.key * string :=
  (match last_played self card with
   | Some t => Py.Num t
   | None => Py.NegInf
   end, card).

(** The discovered cards in ascending order of that key. *)
Definition ranking (self : CardCycleTracker) : list string :=
  Py.sorted Py.pair_lt (ranking_key self) (elements (discovered_cards self)).

(** The hand and the next card that the ordering key determines: the first
    four of the ranking, and the least of the others. *)
Definition ranked_hand (self : CardCycleTracker) : list string :=
  take 4 (ranking self).

Definition ranked_next_card (self : CardCycleTracker) : option string :=
  Py.min_by Py.pair_lt (ranking_key self)
    (filter (fun card => card ∉ ranked_hand self)
            (elements (discovered_cards self))).

(** No two discovered cards were last played at the same timestamp. *)
Definition untied (self : CardCycleTracker) : Prop :=
  forall c d tc td,
    c ∈ discovered_cards self -> d ∈ discovered_cards self -> c <> d ->
    last_played self c = Some tc -> last_played self d = Some td ->
    ~ tc == td.

(** Five plays of which the last two, seen in the same frame, carry the
    same timestamp. *)
Definition tied_plays : list CardPlay :=
  [mkCardPlay "Knight" false 1; mkCardPlay "Archers" false 2;
   mkCardPlay "Fireball" false 3; mkCardPlay "Log" false 4;
   mkCardPlay "Hog Rider" false 4].

(** Two iteration orders used as examples: code-point order and its
    reverse. *)
Definition ascending (s : gset string) : list string :=
  Py.sorted_str (elements s).

Definition descending (s : gset string) : list string :=
  reverse (Py.sorted_str (elements s)).

End Cycle.

(** ** config_loader.py

    [ConfigLoader] reads a JSON file and checks that the sections the
    overlay needs are there.  The embedding starts from what [json.load]
    returns; a file that exists is taken to hold well-formed JSON, and the
    file system is the finite map from paths to the values so denoted.
    [get_cards_by_elixir], which parses the keys with [int], is left
    out. *)

Module Config.

(** A value returned by [json.load]: [None], [bool], [int], [float],
    [str], [list] or [dict] (whose keys are strings). *)
Inductive value : Type :=
| Null
| Bool (b : bool)
| Int (n : Z)
| Float (x : Q)
| Str (s : string)
| List (items : list value)
| Dict (entries : gmap string value).

(** The exceptions that the class raises or lets through. *)
Inductive exception : Type :=
| FileNotFoundError
| ValueError (message : string)
| KeyError (key : string)
| TypeError
| AttributeError.

(** The outcome of a call: a value, or an exception. *)
Inductive result (A : Type) : Type :=
| Returns (a : A)
| Raises (e : exception).
Arguments Returns {A} a.
Arguments Raises {A} e.

#[export] Instance result_bind : MBind result :=
  fun A B f r => match r with Returns a => f a | Raises e => Raises e end.

(** [needle in hay] on two strings. *)
Fixpoint substring (needle hay : string) : bool :=
  String.prefix needle hay
  || match hay with
     | EmptyString => false
     | String _ rest => substring needle rest
     end.

(** [key in container] for a string [key]: a key of a [dict], an element
    of a [list] (only a string can be equal to [key]), a substring of a
    [str]; the other values are not containers. *)
Definition contains (container : value) (key : string) : result bool :=
  match container with
  | Dict entries => Returns (bool_decide (is_Some (entries !! key)))
  | List items =>
      Returns (existsb (fun item => match item with
                                    | Str s => String.eqb s key
                                    | _ => false
                                    end) items)
  | Str s => Returns (substring key s)
  | Null | Bool _ | Int _ | Float _ => Raises TypeError
  end.

(** [container[key]] for a string [key]: only a [dict] can be indexed by a
    string, and a missing key is a [KeyError]. *)
Definition getitem (container : value) (key : string) : result value :=
  match container with
  | Dict entries =>
      match entries !! key with
      | Some v => Returns v
      | None => Raises (KeyError key)
      end
  | _ => Raises TypeError
  end.

(** [v.copy()]: [dict] and [list] have the method. *)
Definition copy (v : value) : result value :=
  match v with
  | Dict _ | List _ => Returns v
  | _ => Raises AttributeError
  end.

(** The dataclass [ElixirTiming]; its fields hold whatever the file
    holds. *)
Record ElixirTiming : Type := mkElixirTiming {
  single_seconds_per_elixir : value;
  double_seconds_per_elixir : value;
  triple_seconds_per_elixir : value
}.

(** The attributes of a [ConfigLoader]. *)
Record ConfigLoader : Type := mkConfigLoader {
  config_path : string;
  _config : value
}.

(** [ConfigLoader._load_config] *)
Definition _load_config (files : gmap string value) (path : string)
  : result value :=
  match files !! path with
  | None => Raises FileNotFoundError
  | Some parsed => Returns parsed
  end.

(** The loops [for key in keys: if key not in container: raise
    ValueError(message)]. *)
Fixpoint require (container : value) (message : string -> string)
    (keys : list string) : result unit :=
  match keys with
  | [] => Returns tt
  | key :: rest =>
      present ← contains container key;
      if present : bool then require container message rest
      else Raises (ValueError (message key))
  end.

(** [ConfigLoader._validate_schema] *)
Definition _validate_schema (self : ConfigLoader) : result unit :=
  require (_config self)
          (fun key => "Missing required key in config: " +:+ key)
          ["cards"; "game_mechanics"];;
  cards ← getitem (_config self) "cards";
  present ← contains cards "cards_by_elixir";
  if negb present
  then Raises (ValueError "Missing 'cards_by_elixir' in cards section")
  else
  cards ← getitem (_config self) "cards";
  present ← contains cards "evolution_cycles";
  if negb present
  then Raises (ValueError "Missing 'evolution_cycles' in cards section")
  else
  game_mechanics ← getitem (_config self) "game_mechanics";
  present ← contains game_mechanics "elixir";
  if negb present
  then Raises (ValueError "Missing 'elixir' in game_mechanics section")
  else
  game_mechanics ← getitem (_config self) "game_mechanics";
  elixir ← getitem game_mechanics "elixir";
  require elixir (fun key => "Missing '" +:+ key +:+ "' in elixir section")
          ["single_elixir"; "double_elixir"; "triple_elixir"].

(** [ConfigLoader.__init__], for the path it is given or falls back to. *)
Definition __init__ (files : gmap string value) (path : string)
  : result ConfigLoader :=
  config ← _load_config files path;
  let self := {| config_path := path; _config := config |} in
  _validate_schema self;;
  Returns self.

(** [ConfigLoader.get_evolution_cycles] *)
Definition get_evolution_cycles (self : ConfigLoader) : result value :=
  cards ← getitem (_config self) "cards";
  cycles ← getitem cards "evolution_cycles";
  copy cycles.

(** [elixir[phase]["exact_seconds_per_elixir"]] *)
Definition exact_seconds (elixir : value) (phase : string) : result value :=
  timing ← getitem elixir phase;
  getitem timing "exact_seconds_per_elixir".

(** [ConfigLoader.get_elixir_timing] *)
Definition get_elixir_timing (self : ConfigLoader) : result ElixirTiming :=
  game_mechanics ← getitem (_config self) "game_mechanics";
  elixir ← getitem game_mechanics "elixir";
  single ← exact_seconds elixir "single_elixir";
  double ← exact_seconds elixir "double_elixir";
  triple ← exact_seconds elixir "triple_elixir";
  Returns (mkElixirTiming single double triple).

(** *** Example files *)

Definition phase_entry (seconds : Q) : value :=
  Dict {[ "exact_seconds_per_elixir" := Float seconds ]}.

(** A file with every section, and the timings of the game. *)
Definition complete : value :=
  Dict {[ "cards" :=
            Dict {[ "cards_by_elixir" := Dict ∅;
                    "evolution_cycles" := Dict {[ "Barbarians" := Int 1 ]} ]};
          "game_mechanics" :=
            Dict {[ "elixir" :=
                      Dict {[ "single_elixir" := phase_entry 2.8;
                              "double_elixir" := phase_entry 1.4;
                              "triple_elixir" := phase_entry 0.9 ]} ]} ]}.

(** A file that names the three phases and gives no timing for them, and
    whose evolution cycles are a number. *)
Definition untimed : value :=
  Dict {[ "cards" :=
            Dict {[ "cards_by_elixir" := Dict ∅;
                    "evolution_cycles" := Int 2 ]};
          "game_mechanics" :=
            Dict {[ "elixir" :=
                      Dict {[ "single_elixir" := Dict ∅;
                              "double_elixir" := Dict ∅;
                              "triple_elixir" := Dict ∅ ]} ]} ]}.

(** A file whose top level is a list. *)
Definition listed : value := List [Str "cards"; Str "game_mechanics"].

End Config.

(** * Properties *)

(** ** Comparisons, [min] and [max] *)

Module PyFacts.

Lemma lt_spec (a b : Q) : Py.lt a b = true <-> a < b.
Proof.
  unfold Py.lt. rewrite Qlt_alt. destruct (a ?= b); intuition congruence.
Qed.

Lemma lt_false (a b : Q) : Py.lt a b = false <-> b <= a.
Proof.
  split.
  - intros H. apply Qnot_lt_le. rewrite <- lt_spec. congruence.
  - intros H. destruct (Py.lt a b) eqn:E; [|reflexivity].
    apply lt_spec in E. exfalso. apply (Qlt_not_le _ _ E H).
Qed.

(** The two outcomes of [min(a, b)] and of [max(a, b)]. *)
Lemma min_cases (a b : Q) :
  (b < a /\ Py.min a b = b) \/ (a <= b /\ Py.min a b = a).
Proof.
  unfold Py.min. destruct (Py.lt b a) eqn:E.
  - left. split; [by apply lt_spec|reflexivity].
  - right. split; [by apply lt_false|reflexivity].
Qed.

Lemma max_cases (a b : Q) :
  (a < b /\ Py.max a b = b) \/ (b <= a /\ Py.max a b = a).
Proof.
  unfold Py.max. destruct (Py.lt a b) eqn:E.
  - left. split; [by apply lt_spec|reflexivity].
  - right. split; [by apply lt_false|reflexivity].
Qed.

(** Python's two-argument [min] and [max] are the library's [Qmin] and
    [Qmax], down to the choice of the argument returned on a tie. *)
Lemma min_Qmin (a b : Q) : Py.min a b = Qmin a b.
Proof.
  unfold Py.min, Py.lt, Qmin, GenericMinMax.gmin.
  rewrite <- (Qcompare_antisym a b). by destruct (a ?= b).
Qed.

Lemma max_Qmax (a b : Q) : Py.max a b = Qmax a b.
Proof.
  unfold Py.max, Py.lt, Qmax, GenericMinMax.gmax. by destruct (a ?= b).
Qed.

(** Case analysis on every [min] and [max] of the goal. *)
Ltac split_min_max :=
  repeat match goal with
  | |- context [Py.min ?a ?b] =>
      destruct (min_cases a b) as [[? ->]|[? ->]]
  | |- context [Py.max ?a ?b] =>
      destruct (max_cases a b) as [[? ->]|[? ->]]
  | H : context [Py.min ?a ?b] |- _ =>
      let E := fresh in
      destruct (min_cases a b) as [[? E]|[? E]]; rewrite E in H; clear E
  | H : context [Py.max ?a ?b] |- _ =>
      let E := fresh in
      destruct (max_cases a b) as [[? E]|[? E]]; rewrite E in H; clear E
  end.

Lemma truediv_nonzero (a b : Q) : ~ b == 0 -> Py.truediv a b = Some (a / b).
Proof.
  intros Hb. unfold Py.truediv. destruct (Qeq_bool b 0) eqn:E; [|reflexivity].
  apply Qeq_bool_iff in E. contradiction.
Qed.

Lemma div_nonneg (a b : Q) : 0 <= a -> 0 < b -> 0 <= a / b.
Proof.
  intros Ha Hb. apply Qle_shift_div_l; [exact Hb|]. by rewrite Qmult_0_l.
Qed.

End PyFacts.

(** ** Sorting and minimum by key *)

Module OrderFacts.

Section Generic.
Context {A K : Type} (ltk : K -> K -> bool) (keyf : A -> K).

Lemma insert_by_perm (x : A) (l : list A) :
  Py.insert_by ltk keyf x l ≡ₚ x :: l.
Proof.
  induction l as [|y r IH]; simpl; [done|].
  destruct (ltk (keyf y) (keyf x)); [|done].
  rewrite IH. apply perm_swap.
Qed.

Lemma sorted_perm (l : list A) : Py.sorted ltk keyf l ≡ₚ l.
Proof.
  induction l as [|x r IH]; simpl; [done|].
  by rewrite insert_by_perm, IH.
Qed.

Lemma sorted_length (l : list A) : length (Py.sorted ltk keyf l) = length l.
Proof. by rewrite sorted_perm. Qed.

Lemma min_from_elem (l : list A) :
  forall best, Py.min_from ltk keyf best l ∈ best :: l.
Proof.
  induction l as [|x r IH]; intros best; simpl; [set_solver|].
  destruct (ltk (keyf x) (keyf best)).
  - apply elem_of_cons. right. apply IH.
  - destruct (proj1 (elem_of_cons _ _ _) (IH best)) as [->|Hr].
    + apply elem_of_cons. by left.
    + apply elem_of_cons. right. apply elem_of_cons. by right.
Qed.

Lemma min_by_elem (l : list A) (m : A) :
  Py.min_by ltk keyf l = Some m -> m ∈ l.
Proof.
  destruct l as [|x r]; simpl; [done|]. intros [= <-]. apply min_from_elem.
Qed.

(** What is needed of [<] on the keys: it is asymmetric, and "not
    smaller" is transitive. *)
Hypothesis ltk_asym : forall a b, ltk a b = true -> ltk b a = false.
Hypothesis ltk_negtrans :
  forall a b c, ltk b a = false -> ltk c b = false -> ltk c a = false.

Lemma insert_by_sorted (x : A) (l : list A) :
  StronglySorted (Py.precedes ltk keyf) l ->
  StronglySorted (Py.precedes ltk keyf) (Py.insert_by ltk keyf x l).
Proof.
  induction 1 as [|y r Hr IH Hy]; simpl.
  - repeat constructor.
  - destruct (ltk (keyf y) (keyf x)) eqn:E.
    + constructor; [exact IH|].
      rewrite insert_by_perm. constructor; [|exact Hy].
      by apply ltk_asym.
    + constructor; [by constructor|].
      constructor; [exact E|].
      eapply Forall_impl; [exact Hy|]. intros z Hz.
      unfold Py.precedes in *. by apply (ltk_negtrans _ (keyf y)).
Qed.

Lemma sorted_sorted (l : list A) :
  StronglySorted (Py.precedes ltk keyf) (Py.sorted ltk keyf l).
Proof.
  induction l as [|x r IH]; simpl; [constructor|].
  by apply insert_by_sorted.
Qed.

Lemma min_from_least (l : list A) :
  forall best x,
    x ∈ best :: l ->
    ltk (keyf x) (keyf (Py.min_from ltk keyf best l)) = false.
Proof.
  assert (forall a, ltk a a = false) as Hirr.
  { intros a. destruct (ltk a a) eqn:E; [|done]. by rewrite (ltk_asym _ _ E) in E. }
  induction l as [|y r IH]; intros best x Hx; simpl.
  - apply list_elem_of_singleton in Hx as ->. apply Hirr.
  - destruct (ltk (keyf y) (keyf best)) eqn:E.
    + apply elem_of_cons in Hx as [->|Hx]; [|by apply IH].
      apply (ltk_negtrans _ (keyf y)); [apply IH; set_solver|by apply ltk_asym].
    + apply elem_of_cons in Hx as [->|Hx]; [apply IH; set_solver|].
      apply elem_of_cons in Hx as [->|Hx]; [|apply IH; set_solver].
      apply (ltk_negtrans _ (keyf best)); [apply IH; set_solver|exact E].
Qed.

Lemma min_by_least (l : list A) (m x : A) :
  Py.min_by ltk keyf l = Some m -> x ∈ l -> ltk (keyf x) (keyf m) = false.
Proof.
  destruct l as [|y r]; simpl; [done|]. intros [= <-]. apply min_from_least.
Qed.
End Generic.

(** The sort is stable: the elements whose keys tie with a given key [k]
    come out in the order in which they went in. *)
Section Stable.
Context {A K : Type} (ltk : K -> K -> bool) (keyf : A -> K).
Hypothesis ltk_negtrans :
  forall a b c, ltk b a = false -> ltk c b = false -> ltk c a = false.

Lemma insert_by_stable (k : K) (x : A) (l : list A) :
  filter (fun y => ltk (keyf y) k = false /\ ltk k (keyf y) = false)
         (Py.insert_by ltk keyf x l)
  = filter (fun y => ltk (keyf y) k = false /\ ltk k (keyf y) = false)
           (x :: l).
Proof.
  induction l as [|y r IH]; simpl; [done|].
  destruct (ltk (keyf y) (keyf x)) eqn:E; [|done].
  rewrite filter_cons, IH, !filter_cons.
  repeat case_decide; try done.
  destruct_and!.
  assert (ltk (keyf y) (keyf x) = false) by (by apply (ltk_negtrans _ k)).
  congruence.
Qed.

Lemma sorted_stable (k : K) (l : list A) :
  filter (fun y => ltk (keyf y) k = false /\ ltk k (keyf y) = false)
         (Py.sorted ltk keyf l)
  = filter (fun y => ltk (keyf y) k = false /\ ltk k (keyf y) = false) l.
Proof.
  induction l as [|x r IH]; simpl; [done|].
  by rewrite insert_by_stable, !filter_cons, IH.
Qed.
End Stable.

(** Sorting and taking the minimum read the keys only. *)
Section Ext.
Context {A K : Type} (ltk : K -> K -> bool) (f g : A -> K).
Hypothesis fg : forall x, f x = g x.

Lemma insert_by_ext (x : A) (l : list A) :
  Py.insert_by ltk f x l = Py.insert_by ltk g x l.
Proof. induction l as [|y r IH]; simpl; [done|]. by rewrite !fg, IH. Qed.

Lemma sorted_ext (l : list A) : Py.sorted ltk f l = Py.sorted ltk g l.
Proof.
  induction l as [|y r IH]; simpl; [done|]. by rewrite IH, insert_by_ext.
Qed.

Lemma min_from_ext (l : list A) :
  forall best, Py.min_from ltk f best l = Py.min_from ltk g best l.
Proof.
  induction l as [|y r IH]; intros best; simpl; [done|]. by rewrite !fg, !IH.
Qed.

Lemma min_by_ext (l : list A) : Py.min_by ltk f l = Py.min_by ltk g l.
Proof. destruct l; simpl; [done|]. by rewrite min_from_ext. Qed.
End Ext.

Lemma min_by_guard {A K} (ltk : K -> K -> bool) (keyf : A -> K) (l : list A) :
  match l with [] => None | _ :: _ => Py.min_by ltk keyf l end
  = Py.min_by ltk keyf l.
Proof. by destruct l. Qed.

(** A sorted list without duplicates is sorted for any relation that the
    first one implies between distinct elements. *)
Lemma StronglySorted_refine {A} (P R : relation A) (l : list A) :
  StronglySorted P l -> NoDup l ->
  (forall x y, x ∈ l -> y ∈ l -> x <> y -> P x y -> R x y) ->
  StronglySorted R l.
Proof.
  induction 1 as [|x l Hl IH Hx]; intros Hnd HPR; [constructor|].
  apply NoDup_cons in Hnd as [Hxl Hnd]. constructor.
  - apply IH; [done|]. intros y z Hy Hz. apply HPR; by apply elem_of_cons; right.
  - apply Forall_forall. intros y Hy. apply HPR.
    + apply elem_of_cons. by left.
    + apply elem_of_cons. by right.
    + intros ->. done.
    + by apply (proj1 (Forall_forall _ _) Hx).
Qed.

Lemma filter_none {A} (P : A -> Prop) `{!forall x, Decision (P x)} (l : list A) :
  (forall x, x ∈ l -> ~ P x) -> filter P l = [].
Proof.
  intros Hl. destruct (filter P l) as [|x r] eqn:E; [done|].
  assert (x ∈ filter P l) as Hx by (rewrite E; apply elem_of_cons; by left).
  apply list_elem_of_filter in Hx as [HP Hx]. by destruct (Hl x Hx).
Qed.

(** *** The three orders in use: timestamps, strings, and pairs *)

Lemma key_lt_asym (a b : Py.key) : Py.key_lt a b = true -> Py.key_lt b a = false.
Proof.
  destruct a as [|x], b as [|y]; simpl; try done.
  rewrite PyFacts.lt_spec, PyFacts.lt_false. apply Qlt_le_weak.
Qed.

Lemma key_lt_negtrans (a b c : Py.key) :
  Py.key_lt b a = false -> Py.key_lt c b = false -> Py.key_lt c a = false.
Proof.
  destruct a as [|x], b as [|y], c as [|z]; simpl; try done.
  rewrite !PyFacts.lt_false. intros H1 H2. by apply (Qle_trans _ y).
Qed.

Lemma key_trichotomy (a b : Py.key) :
  Py.key_lt a b = false -> Py.key_lt b a = false -> Py.key_eqb a b = true.
Proof.
  destruct a as [|x], b as [|y]; simpl; try done.
  rewrite !PyFacts.lt_false. intros H1 H2.
  apply Qeq_bool_iff. by apply Qle_antisym.
Qed.

Lemma key_eqb_lt (a b : Py.key) :
  Py.key_eqb a b = true -> Py.key_lt a b = false /\ Py.key_lt b a = false.
Proof.
  destruct a as [|x], b as [|y]; simpl; try done.
  rewrite !PyFacts.lt_false. intros H%Qeq_bool_iff.
  split; rewrite H; apply Qle_refl.
Qed.

Lemma key_eqb_sym (a b : Py.key) : Py.key_eqb a b = Py.key_eqb b a.
Proof.
  destruct a as [|x], b as [|y]; simpl; try done.
  destruct (Qeq_bool x y) eqn:E1, (Qeq_bool y x) eqn:E2; try done.
  - apply Qeq_bool_iff in E1. symmetry in E1. apply Qeq_bool_iff in E1. congruence.
  - apply Qeq_bool_iff in E2. symmetry in E2. apply Qeq_bool_iff in E2. congruence.
Qed.

Lemma key_eqb_trans (a b c : Py.key) :
  Py.key_eqb a b = true -> Py.key_eqb b c = true -> Py.key_eqb a c = true.
Proof.
  destruct a as [|x], b as [|y], c as [|z]; simpl; try done.
  rewrite !Qeq_bool_iff. intros -> ->. reflexivity.
Qed.

Lemma str_lt_spec (a b : string) :
  String.ltb a b = true <-> OrderedTypeEx.String_as_OT.lt a b.
Proof.
  rewrite <- OrderedTypeEx.String_as_OT.cmp_lt.
  unfold String.ltb, OrderedTypeEx.String_as_OT.cmp.
  destruct (String.compare a b); intuition congruence.
Qed.

Lemma str_lt_trans (a b c : string) :
  String.ltb a b = true -> String.ltb b c = true -> String.ltb a c = true.
Proof.
  rewrite !str_lt_spec. apply OrderedTypeEx.String_as_OT.lt_trans.
Qed.

Lemma str_lt_asym (a b : string) :
  String.ltb a b = true -> String.ltb b a = false.
Proof.
  unfold String.ltb. rewrite (String.compare_antisym b a).
  by destruct (String.compare a b).
Qed.

Lemma str_trichotomy (a b : string) :
  String.ltb a b = false -> String.ltb b a = false -> a = b.
Proof.
  unfold String.ltb. rewrite (String.compare_antisym b a).
  destruct (String.compare a b) eqn:E; simpl; try done.
  intros _ _. by apply String.compare_eq_iff.
Qed.

Lemma str_lt_negtrans (a b c : string) :
  String.ltb b a = false -> String.ltb c b = false -> String.ltb c a = false.
Proof.
  intros H1 H2. destruct (String.ltb c a) eqn:E; [|done].
  destruct (String.ltb a b) eqn:E1.
  - by rewrite (str_lt_trans _ _ _ E E1) in H2.
  - rewrite (str_trichotomy a b E1 H1) in E. congruence.
Qed.

Lemma pair_lt_asym (a b : Py.key * string) :
  Py.pair_lt a b = true -> Py.pair_lt b a = false.
Proof.
  unfold Py.pair_lt. rewrite (key_eqb_sym b.1 a.1).
  destruct (Py.key_eqb a.1 b.1); [apply str_lt_asym|apply key_lt_asym].
Qed.

Lemma pair_lt_negtrans (a b c : Py.key * string) :
  Py.pair_lt b a = false -> Py.pair_lt c b = false -> Py.pair_lt c a = false.
Proof.
  unfold Py.pair_lt.
  destruct (Py.key_eqb b.1 a.1) eqn:Eba, (Py.key_eqb c.1 b.1) eqn:Ecb.
  - rewrite (key_eqb_trans _ _ _ Ecb Eba). apply str_lt_negtrans.
  - intros _ Hcb. destruct (Py.key_eqb c.1 a.1) eqn:Eca.
    + rewrite key_eqb_sym in Eba.
      by rewrite (key_eqb_trans _ _ _ Eca Eba) in Ecb.
    + apply (key_lt_negtrans _ b.1); [|done].
      exact (proj1 (key_eqb_lt _ _ Eba)).
  - intros Hba _. destruct (Py.key_eqb c.1 a.1) eqn:Eca.
    + rewrite key_eqb_sym in Ecb.
      by rewrite (key_eqb_trans _ _ _ Ecb Eca) in Eba.
    + apply (key_lt_negtrans _ b.1); [done|].
      exact (proj1 (key_eqb_lt _ _ Ecb)).
  - intros Hba Hcb. destruct (Py.key_eqb c.1 a.1) eqn:Eca.
    + exfalso. apply key_eqb_lt in Eca as [H1 H2].
      pose proof (key_lt_negtrans _ _ _ H2 Hba) as H3.
      rewrite key_eqb_sym in Ecb.
      by rewrite (key_trichotomy _ _ H3 Hcb) in Ecb.
    + by apply (key_lt_negtrans _ b.1).
Qed.

End OrderFacts.

(** ** The elixir tracker *)

Module ElixirFacts.
Import Elixir.

Lemma seconds_per_elixir_pos (self : ElixirTracker) :
  sound self -> 0 < seconds_per_elixir self.
Proof.
  intros [Hs Hd Ht _ _]. unfold seconds_per_elixir.
  repeat case_match; assumption.
Qed.

Lemma spend_in_range (self : ElixirTracker) (cost : Q) :
  in_range self -> 0 <= cost -> in_range (spend self cost).
Proof.
  unfold in_range, spend. simpl. intros [Hlo Hhi] Hc.
  PyFacts.split_min_max; split; lra.
Qed.

Lemma adjust_in_range (self : ElixirTracker) (delta : Q) :
  0 <= max_elixir self -> in_range (adjust self delta).
Proof.
  unfold in_range, adjust. simpl. intros Hm.
  PyFacts.split_min_max; split; lra.
Qed.

Lemma update_time_in_range (self self' : ElixirTracker) (now_seconds : Q) :
  sound self ->
  match last_update_timestamp self with
  | Some l => l <= now_seconds
  | None => True
  end ->
  update_time self now_seconds = Some self' ->
  in_range self'.
Proof.
  intros Hs Hmono. pose proof (seconds_per_elixir_pos self Hs) as Hrate.
  destruct Hs as [_ _ _ Hm [Hlo Hhi]].
  unfold update_time. destruct (last_update_timestamp self) as [l|].
  - rewrite PyFacts.truediv_nonzero by lra. intros [= <-].
    unfold in_range. simpl.
    assert (0 <= (now_seconds - l) / seconds_per_elixir self) as Hgain
      by (apply PyFacts.div_nonneg; lra).
    PyFacts.split_min_max; split; lra.
  - intros [= <-]. split; assumption.
Qed.

Lemma after_sound (self : ElixirTracker) (c : call) (rest : list call) :
  sound self -> orderly (last_update_timestamp self) (c :: rest) ->
  sound (after self c) /\ orderly (last_update_timestamp (after self c)) rest.
Proof.
  intros Hs Ho. pose proof (seconds_per_elixir_pos self Hs) as Hrate.
  pose proof Hs as [H1 H2 H3 Hm Hr].
  destruct c as [now_seconds|cost|delta| | | ]; simpl in Ho.
  - destruct Ho as [Hmono Ho]. unfold after. simpl.
    destruct (update_time self now_seconds) as [self'|] eqn:E.
    + pose proof (update_time_in_range _ _ _ Hs Hmono E) as Hr'.
      unfold update_time in E.
      destruct (last_update_timestamp self) as [l|];
        [rewrite PyFacts.truediv_nonzero in E by lra|];
        injection E as <-; (split; [by constructor|exact Ho]).
    + exfalso. unfold update_time in E.
      destruct (last_update_timestamp self) as [l|]; [|discriminate].
      rewrite PyFacts.truediv_nonzero in E by lra. discriminate.
  - destruct Ho as [Hc Ho]. split; [|exact Ho].
    constructor; try assumption. by apply spend_in_range.
  - split; [|exact Ho]. constructor; try assumption. by apply adjust_in_range.
  - split; [|exact Ho]. by constructor.
  - split; [|exact Ho]. by constructor.
  - split; [|exact Ho]. by constructor.
Qed.

Lemma run_sound (calls : list call) :
  forall (self : ElixirTracker) (n : nat),
    sound self -> orderly (last_update_timestamp self) calls ->
    sound (run self (take n calls)).
Proof.
  induction calls as [|c rest IH]; intros self n Hs Ho.
  - by destruct n.
  - destruct n as [|n]; [exact Hs|].
    destruct (after_sound self c rest Hs Ho) as [Hs' Ho'].
    simpl. by apply IH.
Qed.

(** C1, as stated: the elixir stays in range after every call, whatever the
    arguments.  It does not: [update_time] bounds the elixir from above
    only, so a timestamp that goes back takes it below zero, and [spend]
    bounds it from below only, so a negative cost takes it above the cap.
    The arguments of the constructor matter as well: a negative rate turns
    elapsed time into a loss, and below a negative cap no elixir is in
    range. *)
Lemma in_range_not_invariant :
  ~ in_range (run default [UpdateTime 10; UpdateTime 0])
  /\ ~ in_range (run default [Spend (-11)])
  /\ ~ in_range (run (__init__ (-1) 1.4 0.9 10) [UpdateTime 0; UpdateTime 1])
  /\ ~ in_range (run (__init__ 2.8 1.4 0.9 (-1)) [Adjust 0]).
Proof.
  repeat split; intros [Hlo Hhi]; vm_compute in Hlo, Hhi; congruence.
Qed.

(** C1, amended: on a tracker constructed with positive rates and a
    non-negative cap, for every sequence of calls in which the timestamps
    passed to [update_time] never decrease and every cost passed to
    [spend] is non-negative, [0 <= current_elixir <= max_elixir] holds
    after every call of the sequence. *)
Theorem in_range_invariant (single double triple maximum : Q)
    (calls : list call) :
  0 < single -> 0 < double -> 0 < triple -> 0 <= maximum ->
  orderly None calls ->
  forall n : nat,
    in_range (run (__init__ single double triple maximum) (take n calls)).
Proof.
  intros H1 H2 H3 Hm Ho n. apply sound_range, run_sound; [|exact Ho].
  constructor; simpl; try assumption. split; [apply Qle_refl|exact Hm].
Qed.

(** The invariant on the default tracker, after four calls of a match. *)
Lemma in_range_invariant_witness :
  in_range (run (__init__ 2.8 1.4 0.9 10)
              (take 4 [UpdateTime 0; UpdateTime 2.8; SetDouble; Spend 3;
                       Adjust (-20); UpdateTime 100])).
Proof.
  apply (in_range_invariant 2.8 1.4 0.9 10
           [UpdateTime 0; UpdateTime 2.8; SetDouble; Spend 3;
            Adjust (-20); UpdateTime 100]);
    try reflexivity.
  - vm_compute. discriminate.
  - vm_compute. intuition discriminate.
Defined.

(** C5: on a fresh tracker (single phase, rate [r]) the first
    [update_time(now1)] only records [now1] as the baseline, so that
    [current_elixir] is still 0, and the next [update_time(now2)] sets
    [current_elixir] to [min(max_elixir, (now2 - now1) / r)]. *)
Theorem first_update_is_baseline (r double triple maximum now1 now2 : Q) :
  0 <= now1 -> now1 < now2 -> ~ r == 0 ->
  let fresh := __init__ r double triple maximum in
  let baseline := set_last_update_timestamp fresh now1 in
  update_time fresh now1 = Some baseline
  /\ current_elixir baseline = 0
  /\ exists self',
       update_time baseline now2 = Some self'
       /\ last_update_timestamp self' = Some now2
       /\ current_elixir self' == Qmin maximum ((now2 - now1) / r).
Proof.
  intros _ _ Hr fresh baseline. split; [reflexivity|]. split; [reflexivity|].
  unfold update_time, baseline, fresh. simpl.
  unfold seconds_per_elixir. simpl.
  rewrite PyFacts.truediv_nonzero by exact Hr.
  eexists. split; [reflexivity|]. split; [reflexivity|]. simpl.
  rewrite PyFacts.min_Qmin, Qplus_0_l. apply Q.min_comm.
Qed.

(** The scenario of the specification: baseline at 0.0, then 2.8 seconds
    at 2.8 seconds per elixir. *)
Lemma first_update_is_baseline_witness :
  exists self',
    update_time (set_last_update_timestamp default 0) 2.8 = Some self'
    /\ last_update_timestamp self' = Some 2.8
    /\ current_elixir self' == Qmin 10 ((2.8 - 0) / 2.8).
Proof.
  apply (first_update_is_baseline 2.8 1.4 0.9 10 0 2.8); vm_compute; congruence.
Defined.

(** C6, as stated: two [spend(c)] in a row leave what one [spend(2c)]
    leaves, in every state and for every cost.  It fails in two ways.
    Where the first [spend] clamps at zero and the second then adds: after
    time has gone back the elixir is negative, and with the cost -2 the two
    calls leave 2 where the single call leaves 3/7.  And by rounding: on
    binary64 values, from 1.0 with the cost 0.3, the two calls leave
    0.39999999999999997 and the single call 0.4. *)
Lemma spend_twice_differs :
  (let self := run default [UpdateTime 10; UpdateTime 0] in
   ~ current_elixir (spend (spend self (-2)) (-2))
     == current_elixir (spend self (2 * -2)))
  /\ PrimFloat.eqb
       (Binary64.spend (Binary64.spend 1 Binary64.three_tenths)
                       Binary64.three_tenths)
       (Binary64.spend 1 (2 * Binary64.three_tenths)%float)
     = false.
Proof. split; [vm_compute; congruence|by vm_compute]. Qed.

(** C6, amended: with exact arithmetic, when [current_elixir] is not
    negative or the cost is not negative, [spend(c)] followed by [spend(c)]
    leaves [current_elixir] equal to what a single [spend(2c)] leaves. *)
Theorem spend_twice (self : ElixirTracker) (c : Q) :
  0 <= current_elixir self \/ 0 <= c ->
  current_elixir (spend (spend self c) c)
  == current_elixir (spend self (2 * c)).
Proof.
  intros H. unfold spend. simpl. PyFacts.split_min_max; lra.
Qed.

(** Two cards of cost 3 played from 7 elixir. *)
Lemma spend_twice_witness :
  current_elixir (spend (spend (adjust default 7) 3) 3)
  == current_elixir (spend (adjust default 7) (2 * 3)).
Proof.
  apply (spend_twice (adjust default 7) 3). left. vm_compute. discriminate.
Defined.

(** C7: [adjust(delta)] sets [current_elixir] to
    [clamp(current_elixir + delta, 0, max_elixir)]; hence, when
    [max_elixir >= 0], after an [adjust] and after any number of further
    [adjust] calls, whatever their deltas, [current_elixir] is at least 0
    and at most [max_elixir]. *)
Theorem adjust_clamps (self : ElixirTracker) (delta : Q) :
  current_elixir (adjust self delta)
  = clamp (current_elixir self + delta) 0 (max_elixir self)
  /\ (0 <= max_elixir self ->
      forall deltas : list Q,
        in_range (foldl adjust (adjust self delta) deltas)).
Proof.
  split.
  - unfold adjust, clamp. simpl. by rewrite PyFacts.max_Qmax, PyFacts.min_Qmin.
  - intros Hm deltas. revert self delta Hm.
    induction deltas as [|d deltas IH]; intros self delta Hm; simpl.
    + by apply adjust_in_range.
    + apply IH. exact Hm.
Qed.

(** Repeated huge corrections, up and down, on the default tracker. *)
Lemma adjust_clamps_witness :
  in_range (foldl adjust (adjust default 1000) [1000; -5000; -5000; 3]).
Proof.
  apply (proj2 (adjust_clamps default 1000)). vm_compute. discriminate.
Defined.

(** C9: [set_single_elixir], [set_double_elixir] and [set_triple_elixir]
    assign the phase and nothing else: [current_elixir],
    [last_update_timestamp], [max_elixir] and the three rates are those of
    the tracker before the call. *)
Theorem set_phase_frame (self : ElixirTracker) :
  (phase (set_single_elixir self) = "single"%string
   /\ only_phase_changed self (set_single_elixir self))
  /\ (phase (set_double_elixir self) = "double"%string
      /\ only_phase_changed self (set_double_elixir self))
  /\ (phase (set_triple_elixir self) = "triple"%string
      /\ only_phase_changed self (set_triple_elixir self)).
Proof. repeat split. Qed.

End ElixirFacts.

(** ** The card cycle tracker *)

Module CycleFacts.
Import Cycle.
Local Close Scope Q_scope.

(** *** [record_play] and the states it reaches *)

Lemma record_play_history (self : CardCycleTracker) name evolved t :
  play_history (record_play self name evolved t)
  = play_history self ++ [mkCardPlay name evolved t].
Proof. unfold record_play. by case_decide. Qed.

Lemma record_play_discovered (self : CardCycleTracker) name evolved t :
  discovered_cards (record_play self name evolved t)
  = {[name]} ∪ discovered_cards self.
Proof. unfold record_play. case_decide; simpl; set_solver. Qed.

Lemma run_snoc (self : CardCycleTracker) (plays : list CardPlay) (p : CardPlay) :
  run self (plays ++ [p]) = record (run self plays) p.
Proof. unfold run. by rewrite foldl_app. Qed.

Lemma run_history (plays : list CardPlay) :
  forall self, play_history (run self plays) = play_history self ++ plays.
Proof.
  induction plays as [|p plays IH]; intros self; simpl.
  - by rewrite app_nil_r.
  - rewrite IH. unfold record. rewrite record_play_history.
    rewrite <- app_assoc. by destruct p.
Qed.

Lemma run_discovered (plays : list CardPlay) :
  forall self,
    discovered_cards (run self plays)
    = discovered_cards self ∪ list_to_set (card_name <$> plays).
Proof.
  induction plays as [|p plays IH]; intros self; simpl.
  - set_solver.
  - rewrite IH. unfold record. rewrite record_play_discovered. set_solver.
Qed.

Lemma reachable_run (plays : list CardPlay) : reachable (run __init__ plays).
Proof.
  induction plays as [|p plays IH] using rev_ind.
  - constructor.
  - rewrite run_snoc. by constructor.
Qed.

Lemma reachable_inv (self : CardCycleTracker) :
  reachable self -> exists plays, self = run __init__ plays.
Proof.
  induction 1 as [|self name evolved t _ [plays ->]].
  - by exists [].
  - exists (plays ++ [mkCardPlay name evolved t]). by rewrite run_snoc.
Qed.

(** In a reachable state the discovered cards are the names in the
    history. *)
Lemma reachable_discovered (self : CardCycleTracker) :
  reachable self ->
  discovered_cards self = list_to_set (card_name <$> play_history self).
Proof.
  intros [plays ->]%reachable_inv.
  rewrite run_discovered, run_history. simpl. set_solver.
Qed.

Lemma size_names (names : list string) :
  size (list_to_set names : gset string) <= length names.
Proof.
  induction names as [|c names IH].
  - by rewrite list_to_set_nil, size_empty.
  - rewrite list_to_set_cons. simpl.
    destruct (decide (c ∈ (list_to_set names : gset string))) as [Hin|Hout].
    + replace ({[c]} ∪ list_to_set names : gset string)
        with (list_to_set names : gset string) by set_solver. lia.
    + rewrite size_union by set_solver. rewrite size_singleton. lia.
Qed.

(** C8: after every sequence of [record_play] calls on a fresh tracker,
    there are at most as many discovered cards as plays in the history
    and every discovered card is the [card_name] of an entry of the
    history; a further [record_play] never removes a discovered card, and
    it changes the set only by adding its identifier when that one is not
    yet present. *)
Theorem discovered_cards_invariant (plays : list CardPlay) :
  let self := run __init__ plays in
  size (discovered_cards self) <= length (play_history self)
  /\ (forall c, c ∈ discovered_cards self ->
              exists p, p ∈ play_history self /\ card_name p = c)
  /\ forall name evolved t,
       let self' := record_play self name evolved t in
       discovered_cards self ⊆ discovered_cards self'
       /\ (name ∈ discovered_cards self ->
           discovered_cards self' = discovered_cards self)
       /\ (name ∉ discovered_cards self ->
           discovered_cards self' = {[name]} ∪ discovered_cards self
           /\ size (discovered_cards self')
              = S (size (discovered_cards self))).
Proof.
  intros self. pose proof (reachable_discovered self (reachable_run plays)) as Hd.
  split; [|split].
  - rewrite Hd. etrans; [apply size_names|]. by rewrite length_fmap.
  - intros c Hc. rewrite Hd in Hc.
    apply elem_of_list_to_set, list_elem_of_fmap in Hc as (p & -> & Hp).
    by exists p.
  - intros name evolved t self'. unfold self'.
    rewrite record_play_discovered. split; [set_solver|]. split.
    + set_solver.
    + intros Hout. split; [done|].
      rewrite size_union by set_solver. by rewrite size_singleton.
Qed.

(** *** The last-played timestamp *)

Lemma last_play_time_snoc s h p :
  last_play_time (mkCardCycleTracker s (h ++ [p]))
  = <[card_name p := timestamp p]> (last_play_time (mkCardCycleTracker s h)).
Proof. unfold last_play_time. simpl. by rewrite foldl_app. Qed.

Lemma last_play_time_lookup (self : CardCycleTracker) (card : string) :
  last_play_time self !! card = last_played self card.
Proof.
  destruct self as [s h]. induction h as [|p h IH] using rev_ind.
  - done.
  - rewrite last_play_time_snoc. unfold last_played in *. simpl in *.
    rewrite filter_app, last_app. rewrite lookup_insert.
    case_decide as Hc.
    + rewrite filter_cons_True by done. simpl. done.
    + rewrite filter_cons_False by done. simpl. exact IH.
Qed.

Lemma recency_ranking_key (self : CardCycleTracker) (card : string) :
  recency self card = (ranking_key self card).1.
Proof. unfold recency, ranking_key. by rewrite last_play_time_lookup. Qed.

Lemma last_played_unflagged s1 s2 h1 h2 card :
  unflagged <$> h1 = unflagged <$> h2 ->
  last_played (mkCardCycleTracker s1 h1) card = last_played (mkCardCycleTracker s2 h2) card.
Proof.
  unfold last_played. simpl. revert h2.
  induction h1 as [|p h1 IH] using rev_ind; intros h2 H.
  - symmetry in H. apply fmap_nil_inv in H. by subst.
  - destruct h2 as [|q h2 _] using rev_ind.
    + rewrite fmap_app in H. by destruct (unflagged <$> h1).
    + rewrite !fmap_app in H. simpl in H. apply app_inj_tail in H as [H Hpq].
      rewrite !filter_app, !last_app.
      injection Hpq as Hn Ht.
      destruct (decide (card_name p = card)) as [Hc|Hc].
      * rewrite !filter_cons_True by congruence. simpl. by rewrite Ht.
      * rewrite !filter_cons_False by congruence. simpl. by apply IH.
Qed.

Lemma recency_last_played (self : CardCycleTracker) (card : string) :
  recency self card
  = match last_played self card with Some t => Py.Num t | None => Py.NegInf end.
Proof. unfold recency. by rewrite last_play_time_lookup. Qed.

Lemma queries_unflagged (set_iter : gset string -> list string)
    (a b : CardCycleTracker) :
  discovered_cards a = discovered_cards b ->
  unflagged <$> play_history a = unflagged <$> play_history b ->
  get_discovered_deck set_iter a = get_discovered_deck set_iter b
  /\ get_inferred_hand set_iter a = get_inferred_hand set_iter b
  /\ get_inferred_next_card set_iter a = get_inferred_next_card set_iter b.
Proof.
  intros Hd Hh.
  assert (forall card, recency a card = recency b card) as Hr.
  { intros card. rewrite !recency_last_played.
    destruct a as [sa ha], b as [sb hb]. simpl in Hh.
    by rewrite (last_played_unflagged sa sb ha hb card Hh). }
  assert (get_inferred_hand set_iter a = get_inferred_hand set_iter b) as Hhand.
  { unfold get_inferred_hand. rewrite Hd, (OrderFacts.sorted_ext _ _ _ Hr).
    destruct (play_history a), (play_history b); done. }
  split; [|split].
  - unfold get_discovered_deck. by rewrite Hd.
  - exact Hhand.
  - unfold get_inferred_next_card. rewrite Hhand, Hd.
    destruct (play_history a), (play_history b); try done.
    destruct (size (discovered_cards b) <? 5); [done|].
    destruct (filter _ _); [done|]. apply (OrderFacts.min_by_ext _ _ _ Hr).
Qed.

(** *** Iteration orders *)

Lemma iterates_ascending : iterates ascending.
Proof. intros s. unfold ascending, Py.sorted_str. apply OrderFacts.sorted_perm. Qed.

Lemma iterates_descending : iterates descending.
Proof.
  intros s. unfold descending, Py.sorted_str.
  by rewrite reverse_Permutation, OrderFacts.sorted_perm.
Qed.

Section Iteration.
Context (set_iter : gset string -> list string).
Hypothesis set_iter_ok : iterates set_iter.

Lemma set_iter_elem (s : gset string) (x : string) : x ∈ set_iter s <-> x ∈ s.
Proof. by rewrite (set_iter_ok s), elem_of_elements. Qed.

Lemma set_iter_NoDup (s : gset string) : NoDup (set_iter s).
Proof. rewrite (set_iter_ok s). apply NoDup_elements. Qed.

Lemma set_iter_length (s : gset string) : length (set_iter s) = size s.
Proof. by rewrite (set_iter_ok s). Qed.

Lemma deck_perm (s : gset string) : Py.sorted_str (set_iter s) ≡ₚ elements s.
Proof. unfold Py.sorted_str. by rewrite OrderFacts.sorted_perm. Qed.

Lemma deck_sorted (s : gset string) :
  StronglySorted (fun a b => String.ltb a b = true) (Py.sorted_str (set_iter s)).
Proof.
  eapply OrderFacts.StronglySorted_refine.
  - apply (OrderFacts.sorted_sorted String.ltb (fun card => card)).
    + apply OrderFacts.str_lt_asym.
    + apply OrderFacts.str_lt_negtrans.
  - rewrite deck_perm. apply NoDup_elements.
  - intros x y _ _ Hxy Hp. unfold Py.precedes in Hp.
    destruct (String.ltb x y) eqn:E; [done|].
    by destruct (Hxy (OrderFacts.str_trichotomy _ _ E Hp)).
Qed.

Lemma by_recency_perm (self : CardCycleTracker) :
  Py.sorted Py.key_lt (recency self) (set_iter (discovered_cards self))
  ≡ₚ elements (discovered_cards self).
Proof. by rewrite OrderFacts.sorted_perm. Qed.

Lemma by_recency_sorted (self : CardCycleTracker) :
  StronglySorted (Py.precedes Py.key_lt (recency self))
    (Py.sorted Py.key_lt (recency self) (set_iter (discovered_cards self))).
Proof.
  apply OrderFacts.sorted_sorted;
    [apply OrderFacts.key_lt_asym|apply OrderFacts.key_lt_negtrans].
Qed.
End Iteration.

Lemma reachable_history_nil (self : CardCycleTracker) :
  reachable self -> play_history self = [] -> discovered_cards self = ∅.
Proof. intros Hr Hh. rewrite (reachable_discovered self Hr), Hh. done. Qed.

Lemma reachable_last_played (self : CardCycleTracker) (card : string) :
  reachable self -> card ∈ discovered_cards self ->
  exists t, last_played self card = Some t.
Proof.
  intros Hr Hc. rewrite (reachable_discovered self Hr) in Hc.
  apply elem_of_list_to_set, list_elem_of_fmap in Hc as (p & -> & Hp).
  unfold last_played.
  destruct (last (filter (fun play => card_name play = card_name p) (play_history self)))
    as [q|] eqn:E; [by exists (timestamp q)|].
  apply last_None in E.
  assert (p ∈ filter (fun play => card_name play = card_name p) (play_history self)) as Hin
    by (by apply list_elem_of_filter).
  rewrite E in Hin. by apply elem_of_nil in Hin.
Qed.

Section Hand.
Context (set_iter : gset string -> list string).
Hypothesis set_iter_ok : iterates set_iter.
Context (self : CardCycleTracker).
Hypothesis self_reachable : reachable self.

Lemma hand_few :
  size (discovered_cards self) < 4 ->
  get_inferred_hand set_iter self = Py.sorted_str (set_iter (discovered_cards self)).
Proof.
  intros Hs. unfold get_inferred_hand.
  destruct (play_history self) eqn:E.
  - rewrite (reachable_history_nil self self_reachable E).
    pose proof (set_iter_length set_iter set_iter_ok ∅) as Hl.
    rewrite size_empty in Hl. by destruct (set_iter ∅).
  - by rewrite (proj2 (Nat.ltb_lt _ _) Hs).
Qed.

Lemma hand_full :
  4 <= size (discovered_cards self) ->
  get_inferred_hand set_iter self
  = take 4 (Py.sorted Py.key_lt (recency self) (set_iter (discovered_cards self))).
Proof.
  intros Hs. unfold get_inferred_hand.
  destruct (play_history self) eqn:E.
  - rewrite (reachable_history_nil self self_reachable E), size_empty in Hs. lia.
  - by rewrite (proj2 (Nat.ltb_ge _ _) Hs).
Qed.

Lemma hand_full_length :
  4 <= size (discovered_cards self) ->
  length (get_inferred_hand set_iter self) = 4.
Proof.
  intros Hs. rewrite hand_full by done.
  rewrite length_take, OrderFacts.sorted_length, set_iter_length by done. lia.
Qed.
End Hand.

(** *** Ties *)

Section Untied.
Context (set_iter : gset string -> list string).
Hypothesis set_iter_ok : iterates set_iter.
Context (self : CardCycleTracker).
Hypothesis self_reachable : reachable self.
Hypothesis self_untied : untied self.

Lemma untied_recency (c d : string) :
  c ∈ discovered_cards self -> d ∈ discovered_cards self -> c <> d ->
  Py.key_eqb (recency self c) (recency self d) = false.
Proof.
  intros Hc Hd Hcd.
  destruct (reachable_last_played self c self_reachable Hc) as [tc Htc].
  destruct (reachable_last_played self d self_reachable Hd) as [td Htd].
  rewrite !recency_last_played, Htc, Htd. simpl.
  destruct (Qeq_bool tc td) eqn:E; [|done].
  apply Qeq_bool_iff in E. by destruct (self_untied c d tc td).
Qed.

Lemma untied_strict (c d : string) :
  c ∈ discovered_cards self -> d ∈ discovered_cards self -> c <> d ->
  Py.key_lt (recency self d) (recency self c) = false ->
  Py.key_lt (recency self c) (recency self d) = true.
Proof.
  intros Hc Hd Hcd H. destruct (Py.key_lt (recency self c) (recency self d)) eqn:E; [done|].
  pose proof (untied_recency c d Hc Hd Hcd) as Hne.
  by rewrite (OrderFacts.key_trichotomy _ _ E H) in Hne.
Qed.

Lemma untied_pair_lt (c d : string) :
  c ∈ discovered_cards self -> d ∈ discovered_cards self -> c <> d ->
  Py.pair_lt (ranking_key self c) (ranking_key self d)
  = Py.key_lt (recency self c) (recency self d).
Proof.
  intros Hc Hd Hcd. unfold Py.pair_lt. rewrite <- !recency_ranking_key.
  by rewrite untied_recency.
Qed.

Lemma by_recency_ranking :
  Py.sorted Py.key_lt (recency self) (set_iter (discovered_cards self))
  = ranking self.
Proof.
  set (R := fun c d => Py.key_lt (recency self c) (recency self d) = true).
  assert (AntiSymm eq R) as HR.
  { intros c d H1 H2. apply OrderFacts.key_lt_asym in H1. unfold R in H2. congruence. }
  apply (StronglySorted_unique R).
  - eapply OrderFacts.StronglySorted_refine.
    + by apply by_recency_sorted.
    + rewrite by_recency_perm by done. apply NoDup_elements.
    + intros c d Hc Hd Hcd Hp. rewrite by_recency_perm in Hc, Hd by done.
      apply elem_of_elements in Hc, Hd. by apply untied_strict.
  - unfold ranking. eapply OrderFacts.StronglySorted_refine.
    + apply OrderFacts.sorted_sorted;
        [apply OrderFacts.pair_lt_asym|apply OrderFacts.pair_lt_negtrans].
    + rewrite OrderFacts.sorted_perm. apply NoDup_elements.
    + intros c d Hc Hd Hcd Hp. rewrite OrderFacts.sorted_perm in Hc, Hd.
      apply elem_of_elements in Hc, Hd. unfold Py.precedes in Hp.
      rewrite untied_pair_lt in Hp by done. by apply untied_strict.
  - unfold ranking. by rewrite by_recency_perm, OrderFacts.sorted_perm.
Qed.

Lemma untied_min_by (l1 l2 : list string) :
  l1 ≡ₚ l2 -> (forall x, x ∈ l1 -> x ∈ discovered_cards self) ->
  Py.min_by Py.key_lt (recency self) l1
  = Py.min_by Py.pair_lt (ranking_key self) l2.
Proof.
  intros Hperm Hsub.
  destruct (Py.min_by Py.key_lt (recency self) l1) as [m1|] eqn:M1;
  destruct (Py.min_by Py.pair_lt (ranking_key self) l2) as [m2|] eqn:M2.
  - f_equal. destruct (decide (m1 = m2)) as [|Hne]; [done|exfalso].
    pose proof (OrderFacts.min_by_elem _ _ _ _ M1) as H1.
    pose proof (OrderFacts.min_by_elem _ _ _ _ M2) as H2.
    assert (m2 ∈ l1) as H2' by (by rewrite Hperm).
    assert (m1 ∈ l2) as H1' by (by rewrite <- Hperm).
    pose proof (OrderFacts.min_by_least Py.key_lt (recency self)
                  OrderFacts.key_lt_asym OrderFacts.key_lt_negtrans
                  _ _ _ M1 H2') as Hleast1.
    pose proof (OrderFacts.min_by_least Py.pair_lt (ranking_key self)
                  OrderFacts.pair_lt_asym OrderFacts.pair_lt_negtrans
                  _ _ _ M2 H1') as Hleast2.
    rewrite untied_pair_lt in Hleast2 by auto.
    pose proof (untied_strict m1 m2 (Hsub _ H1) (Hsub _ H2') Hne Hleast1).
    congruence.
  - destruct l2; [|done]. apply Permutation_nil_r in Hperm. by subst.
  - destruct l1; [|done]. apply Permutation_nil_l in Hperm. by subst.
  - done.
Qed.
End Untied.

(** *** The claims *)

(** C10: the [is_evolved] flag is stored and never read.  For two
    sequences of [record_play] calls that agree on every card name and
    timestamp, the three queries return the same results after every
    prefix, whatever the flags. *)
Theorem is_evolved_not_read (set_iter : gset string -> list string)
    (plays1 plays2 : list CardPlay) :
  unflagged <$> plays1 = unflagged <$> plays2 ->
  forall n : nat,
    let a := run __init__ (take n plays1) in
    let b := run __init__ (take n plays2) in
    get_discovered_deck set_iter a = get_discovered_deck set_iter b
    /\ get_inferred_hand set_iter a = get_inferred_hand set_iter b
    /\ get_inferred_next_card set_iter a = get_inferred_next_card set_iter b.
Proof.
  intros H n a b.
  assert (unflagged <$> take n plays1 = unflagged <$> take n plays2) as Hn
    by (by rewrite !fmap_take, H).
  apply queries_unflagged.
  - unfold a, b. rewrite !run_discovered. f_equal.
    assert (forall l, card_name <$> l = fst <$> (unflagged <$> l)) as E
      by (intros l; by rewrite <- list_fmap_compose).
    by rewrite !E, Hn.
  - unfold a, b. by rewrite !run_history.
Qed.

(** The five plays of [tied_plays], once with every flag unset and once
    with every flag set. *)
Lemma is_evolved_not_read_witness :
  let a := run __init__ (take 5 tied_plays) in
  let b := run __init__ (take 5 ((fun p => mkCardPlay (card_name p) true (timestamp p))
                               <$> tied_plays)) in
  get_discovered_deck ascending a = get_discovered_deck ascending b
  /\ get_inferred_hand ascending a = get_inferred_hand ascending b
  /\ get_inferred_next_card ascending a = get_inferred_next_card ascending b.
Proof.
  apply (is_evolved_not_read ascending tied_plays
           ((fun p => mkCardPlay (card_name p) true (timestamp p))
              <$> tied_plays)).
  reflexivity.
Defined.

(** C3: in every state reachable by [record_play] calls,
    [get_inferred_next_card] returns [None] when fewer than 5 distinct
    cards are discovered, and otherwise returns a discovered card that is
    not in the list returned by [get_inferred_hand]. *)
Theorem next_card_outside_hand (set_iter : gset string -> list string)
    (self : CardCycleTracker) :
  iterates set_iter -> reachable self ->
  (size (discovered_cards self) < 5 ->
   get_inferred_next_card set_iter self = None)
  /\ (5 <= size (discovered_cards self) ->
      exists card,
        get_inferred_next_card set_iter self = Some card
        /\ card ∈ discovered_cards self
        /\ card ∉ get_inferred_hand set_iter self).
Proof.
  intros Hit Hr. split.
  - intros Hs. unfold get_inferred_next_card.
    destruct (play_history self); [done|].
    by rewrite (proj2 (Nat.ltb_lt _ _) Hs).
  - intros Hs. unfold get_inferred_next_card.
    destruct (play_history self) as [|first others] eqn:E.
    { rewrite (reachable_history_nil self Hr E), size_empty in Hs. lia. }
    rewrite (proj2 (Nat.ltb_ge _ _) Hs).
    set (hand := get_inferred_hand set_iter self).
    destruct (filter (fun card => card ∉ hand) (set_iter (discovered_cards self)))
      as [|x rest] eqn:F.
    + exfalso.
      assert (set_iter (discovered_cards self) ⊆+ hand) as Hsub.
      { apply NoDup_submseteq; [by apply set_iter_NoDup|].
        intros c Hc. destruct (decide (c ∈ hand)) as [|Hout]; [done|].
        assert (c ∈ filter (fun card => card ∉ hand)
                       (set_iter (discovered_cards self))) as Hin
          by (by apply list_elem_of_filter).
        rewrite F in Hin. by apply elem_of_nil in Hin. }
      apply submseteq_length in Hsub.
      rewrite set_iter_length in Hsub by done.
      unfold hand in Hsub. rewrite hand_full_length in Hsub by (done || lia). lia.
    + destruct (Py.min_by Py.key_lt (recency self) (x :: rest)) as [m|] eqn:M;
        [|done].
      exists m. split; [done|].
      apply OrderFacts.min_by_elem in M. rewrite <- F in M.
      apply list_elem_of_filter in M as [Hout Hin].
      split; [by apply (set_iter_elem set_iter Hit)|done].
Qed.

(** Five discovered cards, iterated in code-point order. *)
Lemma next_card_outside_hand_witness :
  exists card,
    get_inferred_next_card ascending (run __init__ tied_plays) = Some card
    /\ card ∈ discovered_cards (run __init__ tied_plays)
    /\ card ∉ get_inferred_hand ascending (run __init__ tied_plays).
Proof.
  apply (next_card_outside_hand ascending (run __init__ tied_plays)
           iterates_ascending (reachable_run tied_plays)).
  vm_compute. lia.
Defined.

(** C4: in every state that [record_play] calls reach,
    [get_inferred_hand] returns the empty list when no play is recorded;
    with fewer than 4 distinct discovered cards it returns exactly the
    discovered cards, in increasing code-point order; and otherwise it
    returns 4 distinct discovered cards none of which was last played later
    than a discovered card it leaves out, the last-played timestamp of a
    card being that of the last entry of the history that names it.  The
    result never has more than 4 elements. *)
Theorem inferred_hand_spec (set_iter : gset string -> list string)
    (self : CardCycleTracker) :
  iterates set_iter -> reachable self ->
  let hand := get_inferred_hand set_iter self in
  (play_history self = [] -> hand = [])
  /\ (size (discovered_cards self) < 4 ->
      hand ≡ₚ elements (discovered_cards self)
      /\ StronglySorted (fun a b => String.ltb a b = true) hand)
  /\ (4 <= size (discovered_cards self) ->
      length hand = 4
      /\ NoDup hand
      /\ (forall c, c ∈ hand -> c ∈ discovered_cards self)
      /\ forall c d,
           c ∈ hand -> d ∈ discovered_cards self -> d ∉ hand ->
           exists tc td,
             last_played self c = Some tc /\ last_played self d = Some td
             /\ (tc <= td)%Q)
  /\ length hand <= 4.
Proof.
  intros Hit Hr hand. split; [|split; [|split]].
  - unfold hand, get_inferred_hand. by intros ->.
  - intros Hs. unfold hand. rewrite hand_few by done.
    split; [by apply deck_perm|by apply deck_sorted].
  - intros Hs.
    pose proof (by_recency_perm set_iter Hit self) as Hperm.
    pose proof (by_recency_sorted set_iter self) as Hsorted.
    assert (hand = take 4 (Py.sorted Py.key_lt (recency self)
                             (set_iter (discovered_cards self)))) as Hhand
      by (by apply hand_full).
    set (L := Py.sorted Py.key_lt (recency self)
                (set_iter (discovered_cards self))) in *.
    assert (NoDup L) as Hnd by (rewrite Hperm; apply NoDup_elements).
    assert (forall c, c ∈ hand -> c ∈ discovered_cards self) as Hsub.
    { intros c Hc. rewrite Hhand in Hc. apply elem_of_take in Hc as (i & Hc & _).
      apply elem_of_elements. rewrite <- Hperm. by eapply list_elem_of_lookup_2. }
    split; [by apply hand_full_length|]. split; [|split; [done|]].
    + rewrite Hhand. rewrite <- (take_drop 4 L) in Hnd. by apply list.NoDup_app in Hnd as (? & _ & _).
    + intros c d Hc Hd Hout.
      assert (d ∈ drop 4 L) as Hd'.
      { apply elem_of_elements in Hd. rewrite <- Hperm, <- (take_drop 4 L) in Hd.
        apply elem_of_app in Hd as [Hd|Hd]; [|done]. by rewrite Hhand in Hout. }
      rewrite <- (take_drop 4 L) in Hsorted. rewrite Hhand in Hc.
      pose proof (StronglySorted_app_1_elem_of _ _ _ _ _ Hsorted Hc Hd') as Hcd.
      unfold Py.precedes in Hcd. rewrite !recency_last_played in Hcd.
      destruct (reachable_last_played self c Hr) as [tc Htc]; [by apply Hsub; rewrite Hhand|].
      destruct (reachable_last_played self d Hr Hd) as [td Htd].
      exists tc, td. rewrite Htc, Htd in *. split; [done|]. split; [done|].
      by apply PyFacts.lt_false.
  - unfold hand, get_inferred_hand. destruct (play_history self); [simpl; lia|].
    destruct (size (discovered_cards self) <? 4) eqn:E.
    + apply Nat.ltb_lt in E. unfold Py.sorted_str.
      rewrite OrderFacts.sorted_length, set_iter_length by done. lia.
    + rewrite length_take. lia.
Qed.

(** The hand after the five plays of [tied_plays]. *)
Lemma inferred_hand_spec_witness :
  let self := run __init__ tied_plays in
  let hand := get_inferred_hand ascending self in
  length hand = 4
  /\ NoDup hand
  /\ (forall c, c ∈ hand -> c ∈ discovered_cards self)
  /\ forall c d,
       c ∈ hand -> d ∈ discovered_cards self -> d ∉ hand ->
       exists tc td,
         last_played self c = Some tc /\ last_played self d = Some td
         /\ (tc <= td)%Q.
Proof.
  apply (inferred_hand_spec ascending (run __init__ tied_plays)
           iterates_ascending (reachable_run tied_plays)).
  vm_compute. lia.
Defined.

(** C2, as stated: the hand is the first 4 discovered cards under the key
    (last-played timestamp, card identifier), and neither query depends on
    the iteration order of the set.  The source sorts by the timestamp
    alone, and its sort is stable, so cards tied on the timestamp stay in
    iteration order.  With "Log" and "Hog Rider" both last played at 4, an
    iteration that yields "Log" first puts "Log" in the hand and makes
    "Hog Rider" the next card; the key, and an iteration in code-point
    order, give the opposite. *)
Lemma inferred_hand_order_dependent :
  let self := run __init__ tied_plays in
  iterates ascending /\ iterates descending
  /\ 5 <= size (discovered_cards self)
  /\ get_inferred_hand descending self <> ranked_hand self
  /\ get_inferred_hand ascending self <> get_inferred_hand descending self
  /\ get_inferred_next_card descending self <> ranked_next_card self
  /\ get_inferred_next_card ascending self
     <> get_inferred_next_card descending self.
Proof.
  split; [apply iterates_ascending|]. split; [apply iterates_descending|].
  split; [vm_compute; lia|]. repeat split; vm_compute; congruence.
Qed.

(** C2, amended: in every state that [record_play] calls reach, with at
    least 4 distinct discovered cards no two of which share a last-played
    timestamp, and whatever the iteration order of the set,
    [get_inferred_hand] returns the first 4 discovered cards under the key
    (last-played timestamp, card identifier) ascending, and
    [get_inferred_next_card] returns the least card under that key among
    the discovered cards outside the hand. *)
Theorem inferred_hand_ranked (set_iter : gset string -> list string)
    (self : CardCycleTracker) :
  iterates set_iter -> reachable self -> untied self ->
  4 <= size (discovered_cards self) ->
  get_inferred_hand set_iter self = ranked_hand self
  /\ get_inferred_next_card set_iter self = ranked_next_card self.
Proof.
  intros Hit Hr Hu Hs.
  assert (get_inferred_hand set_iter self = ranked_hand self) as Hhand.
  { rewrite hand_full by done. unfold ranked_hand.
    by rewrite by_recency_ranking. }
  split; [exact Hhand|].
  unfold get_inferred_next_card, ranked_next_card.
  destruct (play_history self) as [|first others] eqn:E.
  { rewrite (reachable_history_nil self Hr E), size_empty in Hs. lia. }
  rewrite Hhand, OrderFacts.min_by_guard.
  destruct (size (discovered_cards self) <? 5) eqn:E5.
  - apply Nat.ltb_lt in E5.
    assert (filter (fun card => card ∉ ranked_hand self)
                   (elements (discovered_cards self)) = []) as ->; [|done].
    assert (ranked_hand self = ranking self) as ->.
    { unfold ranked_hand. apply take_ge. unfold ranking.
      rewrite OrderFacts.sorted_length. change (size (discovered_cards self) <= 4). lia. }
    apply OrderFacts.filter_none. intros x Hx Hout. apply Hout.
    unfold ranking. by rewrite OrderFacts.sorted_perm.
  - apply untied_min_by; try done.
    + by rewrite (Hit (discovered_cards self)).
    + intros x [_ Hx]%list_elem_of_filter. by apply (set_iter_elem set_iter Hit).
Qed.

(** The first four plays of [tied_plays] have four different timestamps. *)
Lemma untied_example :
  untied (run __init__ (take 4 tied_plays)).
Proof.
  assert (forall x, x ∈ discovered_cards (run __init__ (take 4 tied_plays)) ->
            x ∈ ["Knight"; "Archers"; "Fireball"; "Log"]%string) as Hx.
  { intros x Hx. rewrite run_discovered in Hx.
    apply elem_of_union in Hx as [Hx|Hx]; [by apply elem_of_empty in Hx|].
    by apply elem_of_list_to_set in Hx. }
  intros c d tc td Hc%Hx Hd%Hx Hcd Htc Htd.
  repeat (apply elem_of_cons in Hc as [->|Hc]);
    [| | | |by apply elem_of_nil in Hc];
    (repeat (apply elem_of_cons in Hd as [->|Hd]);
     [| | | |by apply elem_of_nil in Hd]);
    try done; vm_compute in Htc, Htd;
    injection Htc as <-; injection Htd as <-; by vm_compute.
Qed.

(** Without ties the reverse iteration order gives the ranked hand too. *)
Lemma inferred_hand_ranked_witness :
  let self := run __init__ (take 4 tied_plays) in
  get_inferred_hand descending self = ranked_hand self
  /\ get_inferred_next_card descending self = ranked_next_card self.
Proof.
  apply (inferred_hand_ranked descending (run __init__ (take 4 tied_plays))
           iterates_descending (reachable_run (take 4 tied_plays))
           untied_example).
  vm_compute. lia.
Defined.

End CycleFacts.

(** * Further properties *)

(** ** The elixir tracker *)

Module ElixirExtras.
Import Elixir.

(** X1: [update_time] raises [ZeroDivisionError] exactly when a baseline
    timestamp is already recorded and the rate of the current phase is
    zero; the first call never raises. *)
Theorem update_time_raises_iff (self : ElixirTracker) (now_seconds : Q) :
  update_time self now_seconds = None
  <-> (exists last, last_update_timestamp self = Some last)
      /\ seconds_per_elixir self == 0.
Proof.
  unfold update_time. destruct (last_update_timestamp self) as [l|].
  - unfold Py.truediv. destruct (Qeq_bool (seconds_per_elixir self) 0) eqn:E.
    + apply Qeq_bool_iff in E. split; [eauto|done].
    + split; [done|]. intros [_ H]. apply Qeq_bool_iff in H. congruence.
  - split; [done|]. by intros [[l [=]] _].
Qed.

(** X2: whatever the arguments and the state, [spend] never leaves a
    negative [current_elixir], and an [update_time] that accrues (one that
    finds a baseline) never leaves [current_elixir] above [max_elixir]. *)
Theorem one_sided_clamps (self : ElixirTracker) :
  (forall cost, 0 <= current_elixir (spend self cost))
  /\ (forall now_seconds self',
        last_update_timestamp self <> None ->
        update_time self now_seconds = Some self' ->
        current_elixir self' <= max_elixir self').
Proof.
  split.
  - intros cost. unfold spend. simpl. PyFacts.split_min_max; lra.
  - intros now_seconds self' Hl. unfold update_time.
    destruct (last_update_timestamp self) as [l|]; [|done].
    destruct (Py.truediv _ _) as [gain|]; [|done]. intros [= <-]. simpl.
    PyFacts.split_min_max; lra.
Qed.

(** A cost of 100 on the default tracker, and a backward tick. *)
Lemma one_sided_clamps_witness :
  0 <= current_elixir (spend default 100)
  /\ current_elixir (run default [UpdateTime 5; UpdateTime 1])
     <= max_elixir (run default [UpdateTime 5; UpdateTime 1]).
Proof.
  split.
  - apply (proj1 (one_sided_clamps default) 100).
  - apply (proj2 (one_sided_clamps (run default [UpdateTime 5])) 1);
      [discriminate|reflexivity].
Defined.

(** X3: within a phase with a positive rate, an intermediate
    [update_time(t1)] does not change what [update_time(t2)] leaves, for
    [t1 <= t2]: the elixir and the recorded timestamp are those of the
    single call. *)
Theorem update_time_split (self : ElixirTracker) (last t1 t2 : Q) :
  last_update_timestamp self = Some last ->
  0 < seconds_per_elixir self -> t1 <= t2 ->
  exists a b c,
    update_time self t1 = Some a /\ update_time a t2 = Some b
    /\ update_time self t2 = Some c
    /\ current_elixir b == current_elixir c
    /\ last_update_timestamp b = last_update_timestamp c.
Proof.
  intros Hl Hr Ht. unfold update_time at 1 3. rewrite Hl.
  rewrite !PyFacts.truediv_nonzero by lra.
  eexists. eexists. eexists. split; [reflexivity|]. split; [|split; [reflexivity|]].
  - unfold update_time. simpl. unfold seconds_per_elixir in *. simpl.
    rewrite PyFacts.truediv_nonzero by lra. reflexivity.
  - simpl. split; [|reflexivity].
    unfold seconds_per_elixir. simpl. fold (seconds_per_elixir self).
    set (r := seconds_per_elixir self) in *.
    assert ((t2 - last) / r == (t1 - last) / r + (t2 - t1) / r) as Hsum
      by (field; lra).
    assert (0 <= (t2 - t1) / r) as Hpos by (apply PyFacts.div_nonneg; lra).
    revert Hsum Hpos.
    generalize ((t2 - last) / r) ((t1 - last) / r) ((t2 - t1) / r).
    intros g g1 g2 Hsum Hpos. PyFacts.split_min_max; lra.
Qed.

(** From the baseline 0, a tick at 1 before the tick at 50. *)
Lemma update_time_split_witness :
  exists a b c,
    update_time (run default [UpdateTime 0]) 1 = Some a
    /\ update_time a 50 = Some b
    /\ update_time (run default [UpdateTime 0]) 50 = Some c
    /\ current_elixir b == current_elixir c
    /\ last_update_timestamp b = last_update_timestamp c.
Proof.
  apply (update_time_split (run default [UpdateTime 0]) 0 1 50);
    [reflexivity|reflexivity|vm_compute; discriminate].
Defined.

(** X4: when time does not go back, the rate is positive and the elixir is
    at most [max_elixir], [update_time] never lowers [current_elixir] and
    keeps it at most [max_elixir]; at the cap it stays at the cap, and a
    tick at the recorded timestamp changes nothing. *)
Theorem update_time_accrues (self self' : ElixirTracker) (last now_seconds : Q) :
  last_update_timestamp self = Some last -> last <= now_seconds ->
  0 < seconds_per_elixir self ->
  current_elixir self <= max_elixir self ->
  update_time self now_seconds = Some self' ->
  current_elixir self <= current_elixir self'
  /\ current_elixir self' <= max_elixir self
  /\ (current_elixir self == max_elixir self ->
      current_elixir self' == max_elixir self)
  /\ (now_seconds == last -> current_elixir self' == current_elixir self).
Proof.
  intros Hl Hmono Hr Hcap. unfold update_time. rewrite Hl.
  rewrite PyFacts.truediv_nonzero by lra. intros [= <-].
  cbn [current_elixir max_elixir set_last_update_timestamp set_current_elixir].
  assert (0 <= (now_seconds - last) / seconds_per_elixir self) as Hgain
    by (apply PyFacts.div_nonneg; lra).
  assert (now_seconds == last ->
          (now_seconds - last) / seconds_per_elixir self == 0) as Hzero.
  { intros E. field_simplify_eq; lra. }
  revert Hgain Hzero.
  generalize ((now_seconds - last) / seconds_per_elixir self).
  intros g Hgain Hzero.
  split; [|split; [|split]].
  - PyFacts.split_min_max; lra.
  - PyFacts.split_min_max; lra.
  - intros E. PyFacts.split_min_max; lra.
  - intros E. specialize (Hzero E). PyFacts.split_min_max; lra.
Qed.

(** Three elixir, then 2.8 seconds in single phase. *)
Lemma update_time_accrues_witness :
  let self := run default [UpdateTime 0; Adjust 3] in
  exists self',
    update_time self 2.8 = Some self'
    /\ current_elixir self <= current_elixir self'
    /\ current_elixir self' <= max_elixir self.
Proof.
  eexists. split; [reflexivity|].
  match goal with |- _ <= current_elixir ?x /\ _ =>
    pose proof (update_time_accrues
                  (run default [UpdateTime 0; Adjust 3]) x 0 2.8) as H
  end.
  destruct H as (H1 & H2 & _);
    [reflexivity|vm_compute; discriminate|reflexivity
    |vm_compute; discriminate|reflexivity|].
  split; [exact H1|exact H2].
Defined.

(** X5: on a tracker whose elixir is in range, two [adjust] calls in the
    same direction leave what one [adjust] by the sum leaves (numbers being
    exact). *)
Theorem adjust_same_direction (self : ElixirTracker) (d1 d2 : Q) :
  in_range self ->
  (0 <= d1 /\ 0 <= d2) \/ (d1 <= 0 /\ d2 <= 0) ->
  current_elixir (adjust (adjust self d1) d2)
  == current_elixir (adjust self (d1 + d2)).
Proof.
  intros [Hlo Hhi] Hd. unfold adjust. simpl. PyFacts.split_min_max; lra.
Qed.

(** +1 twice against +2, from five elixir. *)
Lemma adjust_same_direction_witness :
  current_elixir (adjust (adjust (adjust default 5) 1) 1)
  == current_elixir (adjust (adjust default 5) (1 + 1)).
Proof.
  apply (adjust_same_direction (adjust default 5) 1 1).
  - split; vm_compute; discriminate.
  - left. split; vm_compute; discriminate.
Defined.

(** X6: for a non-negative cost, on a tracker whose elixir is at most
    [max_elixir], [spend(cost)] leaves the tracker that [adjust(-cost)]
    leaves. *)
Theorem spend_is_adjust (self : ElixirTracker) (cost : Q) :
  0 <= cost -> current_elixir self <= max_elixir self ->
  spend self cost = adjust self (- cost).
Proof.
  intros Hc Hcap. unfold spend, adjust. f_equal. f_equal.
  change (current_elixir self - cost) with (current_elixir self + - cost).
  destruct (PyFacts.min_cases (current_elixir self + - cost) (max_elixir self))
    as [[H _]|[_ ->]]; [lra|reflexivity].
Qed.

(** A card of cost 4 played from six elixir. *)
Lemma spend_is_adjust_witness :
  spend (adjust default 6) 4 = adjust (adjust default 6) (- (4)).
Proof.
  apply (spend_is_adjust (adjust default 6) 4); vm_compute; discriminate.
Defined.

(** X7: no sequence of calls changes the three rates or [max_elixir]. *)
Theorem configuration_is_constant (self : ElixirTracker) (calls : list call) :
  single_seconds_per_elixir (run self calls) = single_seconds_per_elixir self
  /\ double_seconds_per_elixir (run self calls) = double_seconds_per_elixir self
  /\ triple_seconds_per_elixir (run self calls) = triple_seconds_per_elixir self
  /\ max_elixir (run self calls) = max_elixir self.
Proof.
  revert self. induction calls as [|c calls IH]; intros self; [done|].
  simpl. destruct (IH (after self c)) as (-> & -> & -> & ->).
  unfold after. destruct c as [now_seconds| | | | | ]; simpl; try done.
  unfold update_time. destruct (last_update_timestamp self); [|done].
  by destruct (Py.truediv _ _).
Qed.
End ElixirExtras.

(** ** The card cycle tracker *)

Module CycleExtras.
Import Cycle CycleFacts.
Local Close Scope Q_scope.

(** X8: [get_discovered_deck] does not depend on the iteration order of
    the set: it lists the discovered cards, each once, in strictly
    increasing code-point order. *)
Theorem deck_order_independent (it1 it2 : gset string -> list string)
    (self : CardCycleTracker) :
  iterates it1 -> iterates it2 ->
  get_discovered_deck it1 self = get_discovered_deck it2 self
  /\ StronglySorted (fun a b => String.ltb a b = true)
       (get_discovered_deck it1 self)
  /\ forall card, card ∈ get_discovered_deck it1 self
                  <-> card ∈ discovered_cards self.
Proof.
  intros H1 H2. unfold get_discovered_deck. split; [|split].
  - assert (AntiSymm eq (fun a b => String.ltb a b = true)) as HR.
    { intros a b Hab Hba. apply OrderFacts.str_lt_asym in Hab. congruence. }
    apply (StronglySorted_unique (fun a b => String.ltb a b = true)).
    + by apply deck_sorted.
    + by apply deck_sorted.
    + by rewrite !deck_perm.
  - by apply deck_sorted.
  - intros card. by rewrite deck_perm, elem_of_elements.
Qed.

(** The deck of five cards, iterated forwards and backwards. *)
Lemma deck_order_independent_witness :
  get_discovered_deck ascending (run __init__ tied_plays)
  = get_discovered_deck descending (run __init__ tied_plays).
Proof.
  apply (deck_order_independent ascending descending (run __init__ tied_plays)
           iterates_ascending iterates_descending).
Defined.

Lemma size_remove_dups (names : list string) :
  size (list_to_set names : gset string) = length (remove_dups names).
Proof.
  rewrite <- (size_list_to_set (C := gset string) (remove_dups names))
    by apply NoDup_remove_dups.
  f_equal. apply set_eq. intros x.
  by rewrite !elem_of_list_to_set, elem_of_remove_dups.
Qed.

(** X9: after a sequence of [record_play] calls on a fresh tracker,
    [get_discovered_deck] holds exactly the card names passed, its length
    is the number of distinct names (no cap at 8 is applied), and further
    plays never shorten it. *)
Theorem deck_lists_recorded_names (set_iter : gset string -> list string)
    (plays more : list CardPlay) :
  iterates set_iter ->
  let deck := get_discovered_deck set_iter (run __init__ plays) in
  (forall card, card ∈ deck <-> card ∈ card_name <$> plays)
  /\ length deck = length (remove_dups (card_name <$> plays))
  /\ length deck
     <= length (get_discovered_deck set_iter (run __init__ (plays ++ more))).
Proof.
  intros Hit deck.
  assert (forall l, discovered_cards (run __init__ l)
                    = list_to_set (card_name <$> l)) as Hd.
  { intros l. rewrite run_discovered. simpl. apply set_eq. intros x.
    rewrite elem_of_union. split; [intros [H|H]; [by apply elem_of_empty in H|done]|by right]. }
  assert (forall l, length (get_discovered_deck set_iter (run __init__ l))
                    = size (discovered_cards (run __init__ l))) as Hlen.
  { intros l. unfold get_discovered_deck. by rewrite deck_perm. }
  split; [|split].
  - intros card. unfold deck, get_discovered_deck.
    by rewrite deck_perm, elem_of_elements, Hd, elem_of_list_to_set.
  - unfold deck. by rewrite Hlen, Hd, size_remove_dups.
  - unfold deck. rewrite !Hlen, !Hd. apply subseteq_size.
    intros x. rewrite !elem_of_list_to_set, fmap_app, elem_of_app. by left.
Qed.

(** Five plays of five cards, then a replay. *)
Lemma deck_lists_recorded_names_witness :
  length (get_discovered_deck ascending (run __init__ tied_plays))
  = length (remove_dups (card_name <$> tied_plays)).
Proof.
  apply (deck_lists_recorded_names ascending tied_plays
           [mkCardPlay "Knight" true 9] iterates_ascending).
Defined.

(** X10: in a state reached by [record_play] calls with fewer than 4
    distinct discovered cards, the inferred hand is the discovered deck. *)
Theorem small_hand_is_deck (set_iter : gset string -> list string)
    (self : CardCycleTracker) :
  iterates set_iter -> reachable self ->
  size (discovered_cards self) < 4 ->
  get_inferred_hand set_iter self = get_discovered_deck set_iter self.
Proof.
  intros Hit Hr Hs. unfold get_inferred_hand, get_discovered_deck.
  destruct (play_history self) as [|first others] eqn:E.
  - rewrite (reachable_history_nil self Hr E).
    pose proof (set_iter_length set_iter Hit ∅) as Hl.
    rewrite size_empty in Hl. by destruct (set_iter ∅).
  - by rewrite (proj2 (Nat.ltb_lt _ _) Hs).
Qed.

(** Three cards seen. *)
Lemma small_hand_is_deck_witness :
  get_inferred_hand descending (run __init__ (take 3 tied_plays))
  = get_discovered_deck descending (run __init__ (take 3 tied_plays)).
Proof.
  apply (small_hand_is_deck descending (run __init__ (take 3 tied_plays))
           iterates_descending (reachable_run (take 3 tied_plays))).
  vm_compute. lia.
Defined.

(** X11: [record_play] appends: after a sequence of calls the history is
    the history before followed by the plays in call order, whatever their
    timestamps. *)
Theorem history_is_append_only (self : CardCycleTracker)
    (plays : list CardPlay) :
  play_history (run self plays) = play_history self ++ plays.
Proof.
  revert self. induction plays as [|p plays IH]; intros self; simpl.
  - by rewrite app_nil_r.
  - rewrite IH. unfold record, record_play.
    destruct p as [name evolved t]. case_decide; simpl; by rewrite <- app_assoc.
Qed.

(** X12: after [record_play(name, _, t)] the sort key of [name] is [t],
    even when an earlier play of [name] carries a later timestamp, and the
    sort keys of the other cards are unchanged. *)
Theorem last_write_wins (self : CardCycleTracker) (name : string)
    (evolved : bool) (t : Q) :
  recency (record_play self name evolved t) name = Py.Num t
  /\ forall card, card <> name ->
       recency (record_play self name evolved t) card = recency self card.
Proof.
  assert (last_play_time (record_play self name evolved t)
          = <[name := t]> (last_play_time self)) as E.
  { unfold last_play_time. rewrite record_play_history. by rewrite foldl_app. }
  unfold recency. rewrite E. split.
  - by rewrite lookup_insert_eq.
  - intros card Hc. by rewrite lookup_insert_ne.
Qed.

(** X13: when at least 5 distinct cards are discovered, a card played at a
    timestamp later than the last play of every other discovered card is
    not in the inferred hand. *)
Theorem just_played_leaves_hand (set_iter : gset string -> list string)
    (self : CardCycleTracker) (name : string) (evolved : bool) (t : Q) :
  iterates set_iter -> reachable self ->
  5 <= size (discovered_cards (record_play self name evolved t)) ->
  (forall card t', card ∈ discovered_cards self -> card <> name ->
                   last_played self card = Some t' -> (t' < t)%Q) ->
  name ∉ get_inferred_hand set_iter (record_play self name evolved t).
Proof.
  intros Hit Hr Hs Hlate Hin.
  set (self' := record_play self name evolved t) in *.
  assert (reachable self') as Hr' by (by constructor).
  rewrite (hand_full set_iter self' Hr') in Hin by lia.
  pose proof (by_recency_perm set_iter Hit self') as Hperm.
  pose proof (by_recency_sorted set_iter self') as Hsorted.
  set (L := Py.sorted Py.key_lt (recency self')
              (set_iter (discovered_cards self'))) in *.
  assert (NoDup L) as Hnd by (rewrite Hperm; apply NoDup_elements).
  assert (length L = size (discovered_cards self')) as Hlen
    by (by rewrite Hperm).
  rewrite <- (take_drop 4 L) in Hnd, Hsorted.
  destruct (drop 4 L) as [|d rest] eqn:Hdrop.
  { apply (f_equal length) in Hdrop. rewrite length_drop in Hdrop.
    simpl in Hdrop. lia. }
  assert (d ∈ d :: rest) as Hd by (apply elem_of_cons; by left).
  pose proof (StronglySorted_app_1_elem_of _ _ _ _ _ Hsorted Hin Hd) as Hnd'.
  apply list.NoDup_app in Hnd as (_ & Hdisj & _).
  assert (d <> name) as Hne by (intros ->; by apply (Hdisj name)).
  assert (d ∈ discovered_cards self) as Hd_old.
  { assert (d ∈ L) as HdL.
    { rewrite <- (take_drop 4 L), Hdrop. apply elem_of_app. by right. }
    rewrite Hperm in HdL. apply elem_of_elements in HdL.
    unfold self' in HdL. rewrite record_play_discovered in HdL.
    apply elem_of_union in HdL as [HdL|HdL]; [|done].
    by apply elem_of_singleton in HdL. }
  unfold Py.precedes in Hnd'.
  destruct (last_write_wins self name evolved t) as [Hname Hother].
  fold self' in Hname, Hother. rewrite Hname, (Hother d Hne) in Hnd'.
  rewrite recency_last_played in Hnd'.
  destruct (reachable_last_played self d Hr Hd_old) as [td Htd].
  rewrite Htd in Hnd'. simpl in Hnd'.
  apply PyFacts.lt_false in Hnd'.
  pose proof (Hlate d td Hd_old Hne Htd). lra.
Qed.

(** "Knight" played again at 10, after the five plays of [tied_plays]. *)
Lemma just_played_leaves_hand_witness :
  "Knight"%string
  ∉ get_inferred_hand ascending
      (record_play (run __init__ tied_plays) "Knight" false 10).
Proof.
  apply (just_played_leaves_hand ascending (run __init__ tied_plays)
           "Knight" false 10 iterates_ascending (reachable_run tied_plays)).
  - vm_compute. lia.
  - intros card t' Hcard _ Ht'. rewrite run_discovered in Hcard.
    apply elem_of_union in Hcard as [Hcard|Hcard];
      [by apply elem_of_empty in Hcard|].
    apply elem_of_list_to_set in Hcard.
    repeat (apply elem_of_cons in Hcard as [->|Hcard]);
      [| | | | |by apply elem_of_nil in Hcard];
      vm_compute in Ht'; injection Ht' as <-; reflexivity.
Defined.

(** X14: with at least 4 distinct discovered cards, the inferred hand is
    listed oldest play first: no card of the list was last played later
    than a card that follows it. *)
Theorem hand_oldest_first (set_iter : gset string -> list string)
    (self : CardCycleTracker) :
  iterates set_iter -> reachable self ->
  4 <= size (discovered_cards self) ->
  StronglySorted
    (fun c d => exists tc td,
       last_played self c = Some tc /\ last_played self d = Some td
       /\ (tc <= td)%Q)
    (get_inferred_hand set_iter self).
Proof.
  intros Hit Hr Hs. rewrite hand_full by done.
  pose proof (by_recency_perm set_iter Hit self) as Hperm.
  pose proof (by_recency_sorted set_iter self) as Hsorted.
  set (L := Py.sorted Py.key_lt (recency self)
              (set_iter (discovered_cards self))) in *.
  assert (forall c, c ∈ take 4 L -> c ∈ discovered_cards self) as Hsub.
  { intros c Hc. apply elem_of_elements. rewrite <- Hperm.
    rewrite <- (take_drop 4 L). apply elem_of_app. by left. }
  rewrite <- (take_drop 4 L) in Hsorted.
  apply StronglySorted_app_1_l in Hsorted.
  revert Hsub. induction Hsorted as [|c l Hl IH Hc]; intros Hsub; constructor.
  - apply IH. intros x Hx. apply Hsub, elem_of_cons. by right.
  - apply Forall_forall. intros d Hd.
    destruct (reachable_last_played self c Hr) as [tc Htc];
      [apply Hsub, elem_of_cons; by left|].
    destruct (reachable_last_played self d Hr) as [td Htd];
      [apply Hsub, elem_of_cons; by right|].
    exists tc, td. split; [done|]. split; [done|].
    pose proof (proj1 (Forall_forall _ _) Hc d Hd) as Hcd.
    unfold Py.precedes in Hcd. rewrite !recency_last_played, Htc, Htd in Hcd.
    by apply PyFacts.lt_false.
Qed.

(** The hand after the five plays of [tied_plays]. *)
Lemma hand_oldest_first_witness :
  StronglySorted
    (fun c d => exists tc td,
       last_played (run __init__ tied_plays) c = Some tc
       /\ last_played (run __init__ tied_plays) d = Some td
       /\ (tc <= td)%Q)
    (get_inferred_hand descending (run __init__ tied_plays)).
Proof.
  apply (hand_oldest_first descending (run __init__ tied_plays)
           iterates_descending (reachable_run tied_plays)).
  vm_compute. lia.
Defined.

(** X15: the card returned by [get_inferred_next_card] was last played no
    later than any discovered card outside the inferred hand. *)
Theorem next_card_is_oldest_outside_hand
    (set_iter : gset string -> list string) (self : CardCycleTracker)
    (next : string) :
  iterates set_iter -> reachable self ->
  get_inferred_next_card set_iter self = Some next ->
  forall card,
    card ∈ discovered_cards self ->
    card ∉ get_inferred_hand set_iter self ->
    exists tn tc,
      last_played self next = Some tn /\ last_played self card = Some tc
      /\ (tn <= tc)%Q.
Proof.
  intros Hit Hr Hnext card Hcard Hout.
  unfold get_inferred_next_card in Hnext.
  destruct (play_history self) as [|first others]; [done|].
  destruct (size (discovered_cards self) <? 5); [done|].
  rewrite OrderFacts.min_by_guard in Hnext.
  assert (card ∈ filter (fun c => c ∉ get_inferred_hand set_iter self)
                   (set_iter (discovered_cards self))) as Hin.
  { apply list_elem_of_filter. split; [done|]. by apply (set_iter_elem set_iter Hit). }
  pose proof (OrderFacts.min_by_least Py.key_lt (recency self)
                OrderFacts.key_lt_asym OrderFacts.key_lt_negtrans
                _ _ _ Hnext Hin) as Hleast.
  apply OrderFacts.min_by_elem in Hnext.
  apply list_elem_of_filter in Hnext as [_ Hn].
  apply (set_iter_elem set_iter Hit) in Hn.
  destruct (reachable_last_played self next Hr Hn) as [tn Htn].
  destruct (reachable_last_played self card Hr Hcard) as [tc Htc].
  exists tn, tc. split; [done|]. split; [done|].
  rewrite !recency_last_played, Htn, Htc in Hleast.
  by apply PyFacts.lt_false.
Qed.

(** Six cards: "Log" is next, and older than "Cannon". *)
Lemma next_card_is_oldest_outside_hand_witness :
  let self := run __init__ (tied_plays ++ [mkCardPlay "Cannon" false 7]) in
  exists tn tc,
    last_played self "Log" = Some tn /\ last_played self "Cannon" = Some tc
    /\ (tn <= tc)%Q.
Proof.
  apply (next_card_is_oldest_outside_hand ascending
           (run __init__ (tied_plays ++ [mkCardPlay "Cannon" false 7]))
           "Log" iterates_ascending (reachable_run _)).
  - reflexivity.
  - rewrite run_discovered. apply elem_of_union. right.
    apply elem_of_list_to_set. vm_compute. repeat constructor.
  - vm_compute. intros H. repeat (apply elem_of_cons in H as [H|H]; [done|]).
    by apply elem_of_nil in H.
Defined.
End CycleExtras.

(** ** The configuration loader *)

Module ConfigFacts.
Import Config.

Lemma bind_Returns {A B} (r : result A) (f : A -> result B) (b : B) :
  r ≫= f = Returns b <-> exists a, r = Returns a /\ f a = Returns b.
Proof.
  destruct r as [a|e]; simpl.
  - split; [by exists a|by intros (? & [= <-] & ?)].
  - split; [done|by intros (? & ? & ?)].
Qed.

Lemma bind_Raises {A B} (r : result A) (f : A -> result B) (e : exception) :
  r ≫= f = Raises e <-> r = Raises e \/ exists a, r = Returns a /\ f a = Raises e.
Proof.
  destruct r as [a|e']; simpl.
  - split; [right; by exists a|]. by intros [|(? & [= <-] & ?)].
  - split; [intros [= <-]; by left|]. by intros [[= <-]|(? & ? & ?)].
Qed.

Lemma contains_Dict (entries : gmap string value) (key : string) :
  contains (Dict entries) key = Returns true <-> is_Some (entries !! key).
Proof.
  simpl. split.
  - intros [= H]. by apply bool_decide_eq_true in H.
  - intros H. f_equal. by apply bool_decide_eq_true.
Qed.

Lemma contains_Raises (container : value) (key : string) (e : exception) :
  contains container key = Raises e -> e = TypeError.
Proof. destruct container; simpl; congruence. Qed.

Lemma getitem_Returns (container : value) (key : string) (v : value) :
  getitem container key = Returns v
  <-> exists entries, container = Dict entries /\ entries !! key = Some v.
Proof.
  destruct container as [| | | | | |entries]; simpl;
    try (split; [done|by intros (? & ? & ?)]).
  destruct (entries !! key) as [w|] eqn:E.
  - split; [intros [= <-]; eauto|]. intros (? & [= <-] & ?). congruence.
  - split; [done|]. intros (? & [= <-] & ?). congruence.
Qed.

Lemma getitem_Raises (container : value) (key : string) (e : exception) :
  getitem container key = Raises e -> e = TypeError \/ e = KeyError key.
Proof.
  destruct container as [| | | | | |entries]; simpl; try (intros [= <-]; by left).
  destruct (entries !! key); [done|]. intros [= <-]. by right.
Qed.

Lemma require_Returns (container : value) (message : string -> string)
    (keys : list string) :
  require container message keys = Returns tt
  <-> Forall (fun key => contains container key = Returns true) keys.
Proof.
  induction keys as [|key rest IH]; simpl.
  - split; [constructor|done].
  - rewrite Forall_cons, <- IH.
    destruct (contains container key) as [[|]|e]; simpl; naive_solver.
Qed.

Lemma require_Raises (container : value) (message : string -> string)
    (keys : list string) (e : exception) :
  require container message keys = Raises e ->
  e = TypeError \/ exists key, key ∈ keys /\ e = ValueError (message key).
Proof.
  induction keys as [|key rest IH]; simpl; [done|].
  destruct (contains container key) as [[|]|e'] eqn:E; simpl.
  - intros [->|(k & Hk & ->)]%IH; [by left|right].
    exists k. split; [|done]. apply elem_of_cons. by right.
  - intros [= <-]. right. exists key. split; [|done]. apply elem_of_cons. by left.
  - intros [= <-]. left. by apply contains_Raises in E.
Qed.

Lemma validation_passes (self : ConfigLoader) :
  _validate_schema self = Returns tt ->
  exists top cards game_mechanics elixir,
    _config self = Dict top
    /\ top !! "cards" = Some cards
    /\ top !! "game_mechanics" = Some (Dict game_mechanics)
    /\ game_mechanics !! "elixir" = Some elixir
    /\ contains cards "cards_by_elixir" = Returns true
    /\ contains cards "evolution_cycles" = Returns true
    /\ Forall (fun key => contains elixir key = Returns true)
         ["single_elixir"; "double_elixir"; "triple_elixir"].
Proof.
  unfold _validate_schema. intros H.
  apply bind_Returns in H as (_ & _ & H).
  apply bind_Returns in H as (cards & Hcards & H).
  apply bind_Returns in H as ([|] & Hby & H); [cbn [negb] in H|done].
  apply bind_Returns in H as (cards' & Hcards' & H).
  apply bind_Returns in H as ([|] & Hevo & H); [cbn [negb] in H|done].
  apply bind_Returns in H as (gm & Hgm & H).
  apply bind_Returns in H as ([|] & _ & H); [cbn [negb] in H|done].
  apply bind_Returns in H as (gm' & Hgm' & H).
  apply bind_Returns in H as (elixir & Helixir & H).
  apply require_Returns in H.
  apply getitem_Returns in Hcards as (top & Htop & Hc).
  apply getitem_Returns in Hcards' as (top' & Htop' & Hc').
  apply getitem_Returns in Hgm' as (top'' & Htop'' & Hg).
  apply getitem_Returns in Helixir as (g & -> & He).
  rewrite Htop in Htop', Htop''. injection Htop' as <-. injection Htop'' as <-.
  rewrite Hc in Hc'. injection Hc' as <-.
  exists top, cards, g, elixir. done.
Qed.

(** A lookup that follows a successful membership test on the same
    container cannot miss the key. *)
Lemma guarded_getitem (container : value) (key : string) (e : exception) :
  contains container key = Returns true ->
  getitem container key = Raises e -> e = TypeError.
Proof.
  destruct container as [| | | | | |entries]; simpl; try congruence.
  intros [= H]. apply bool_decide_eq_true in H as [v ->]. done.
Qed.

(** Splits a hypothesis [H] saying that a sequence of steps raises [e] into
    the cases of the step that raises, and names what each step yields. *)
Ltac raising H :=
  repeat match type of H with
  | (if negb ?b then _ else _) = _ => destruct b; cbn [negb] in H
  | _ ≫= _ = Raises _ =>
      apply bind_Raises in H; destruct H as [H|(? & ? & H)]
  end.

(** Identifies the results of two evaluations of the same expression. *)
Ltac same_results :=
  repeat match goal with
  | H1 : ?t = Returns ?a, H2 : ?t = Returns ?b |- _ =>
      rewrite H1 in H2; injection H2 as <-
  end.

(** X17: when [_validate_schema] raises, it raises [ValueError] (a key is
    missing) or [TypeError] (a section is not a container, or cannot be
    indexed by a string); it never raises [KeyError]. *)
Theorem validation_errors (self : ConfigLoader) (e : exception) :
  _validate_schema self = Raises e ->
  e = TypeError \/ exists message, e = ValueError message.
Proof.
  unfold _validate_schema. intros H. raising H;
  repeat match goal with
  | H : Raises _ = Raises _ |- _ => injection H as <-
  | H : require _ _ _ = Raises _ |- _ =>
      apply require_Raises in H; destruct H as [H|(? & _ & H)]; subst e
  | H : contains _ _ = Raises _ |- _ => apply contains_Raises in H; subst e
  | H : require _ _ _ = Returns ?u |- _ =>
      destruct u; apply require_Returns in H;
      apply Forall_cons in H as [? H]; apply Forall_cons in H as [? _]
  end; eauto; same_results; left;
  match goal with
  | H : getitem ?c ?k = Raises _ |- _ => by apply (guarded_getitem c k)
  end.
Qed.

(** A file whose top level is a list passes the two membership tests and
    fails at the first lookup. *)
Lemma validation_errors_witness :
  TypeError = TypeError \/ exists message, TypeError = ValueError message.
Proof.
  apply (validation_errors (mkConfigLoader "overlay.json" listed) TypeError).
  reflexivity.
Defined.

(** X16: [_validate_schema] returns normally exactly when the file is an
    object with a "cards" entry that contains "cards_by_elixir" and
    "evolution_cycles", and a "game_mechanics" object whose "elixir" entry
    contains the three phase names. *)
Theorem validated_shape (self : ConfigLoader) :
  _validate_schema self = Returns tt
  <-> exists top cards game_mechanics elixir,
        _config self = Dict top
        /\ top !! "cards" = Some cards
        /\ top !! "game_mechanics" = Some (Dict game_mechanics)
        /\ game_mechanics !! "elixir" = Some elixir
        /\ contains cards "cards_by_elixir" = Returns true
        /\ contains cards "evolution_cycles" = Returns true
        /\ Forall (fun key => contains elixir key = Returns true)
             ["single_elixir"; "double_elixir"; "triple_elixir"].
Proof.
  split; [apply validation_passes|].
  intros (top & cards & gm & elixir & Htop & Hc & Hg & He & Hby & Hevo & Hph).
  unfold _validate_schema. rewrite Htop.
  assert (require (Dict top)
            (fun key => "Missing required key in config: " +:+ key)
            ["cards"; "game_mechanics"] = Returns tt) as ->.
  { apply require_Returns. repeat constructor; apply contains_Dict; eauto. }
  assert (getitem (Dict top) "cards" = Returns cards) as ->
    by (apply getitem_Returns; eauto).
  assert (getitem (Dict top) "game_mechanics" = Returns (Dict gm)) as ->
    by (apply getitem_Returns; eauto).
  cbn [mbind result_bind]. rewrite Hby, Hevo. cbn [mbind result_bind negb].
  assert (contains (Dict gm) "elixir" = Returns true) as ->
    by (apply contains_Dict; eauto).
  assert (getitem (Dict gm) "elixir" = Returns elixir) as ->
    by (apply getitem_Returns; eauto).
  cbn [mbind result_bind negb]. by apply require_Returns.
Qed.

(** X18: on a validated configuration [get_evolution_cycles] never raises
    [KeyError] (it can raise [TypeError] or [AttributeError] when a
    section has the wrong type), and what it returns is the value stored
    under "cards" / "evolution_cycles". *)
Theorem evolution_cycles_after_validation (self : ConfigLoader) :
  _validate_schema self = Returns tt ->
  (forall e, get_evolution_cycles self = Raises e ->
             e = TypeError \/ e = AttributeError)
  /\ (forall cycles, get_evolution_cycles self = Returns cycles ->
        exists top cards,
          _config self = Dict top /\ top !! "cards" = Some (Dict cards)
          /\ cards !! "evolution_cycles" = Some cycles).
Proof.
  intros (top & cards & gm & elixir & Htop & Hc & _ & _ & _ & Hevo & _)
    %validation_passes.
  unfold get_evolution_cycles. rewrite Htop. simpl. rewrite Hc. simpl. split.
  - intros e H. raising H.
    + left. by apply (guarded_getitem cards "evolution_cycles").
    + right. destruct x; simpl in H; congruence.
  - intros cycles H. apply bind_Returns in H as (v & Hv & H).
    apply getitem_Returns in Hv as (entries & -> & Hv).
    exists top, entries. split; [done|]. split; [done|].
    destruct v; simpl in H; congruence.
Qed.

(** The validated file [untimed] stores a number there, which has no
    [copy]. *)
Lemma evolution_cycles_after_validation_witness :
  AttributeError = TypeError \/ AttributeError = AttributeError.
Proof.
  apply (proj1 (evolution_cycles_after_validation
                  (mkConfigLoader "overlay.json" untimed) eq_refl)).
  reflexivity.
Defined.

Lemma exact_seconds_Raises (elixir : value) (phase : string) (e : exception) :
  contains elixir phase = Returns true ->
  exact_seconds elixir phase = Raises e ->
  e = TypeError \/ e = KeyError "exact_seconds_per_elixir".
Proof.
  intros Hin H. unfold exact_seconds in H. raising H.
  - left. by apply (guarded_getitem elixir phase).
  - by apply getitem_Raises in H.
Qed.

(** X19: on a validated configuration the only [KeyError] that
    [get_elixir_timing] can raise is for "exact_seconds_per_elixir", the
    one key it reads that [_validate_schema] does not check; otherwise it
    raises [TypeError] or returns. *)
Theorem elixir_timing_after_validation (self : ConfigLoader) (e : exception) :
  _validate_schema self = Returns tt ->
  get_elixir_timing self = Raises e ->
  e = TypeError \/ e = KeyError "exact_seconds_per_elixir".
Proof.
  intros (top & cards & gm & elixir & Htop & _ & Hg & He & _ & _ & Hph)
    %validation_passes.
  apply Forall_cons in Hph as [H1 Hph]. apply Forall_cons in Hph as [H2 Hph].
  apply Forall_cons in Hph as [H3 _].
  unfold get_elixir_timing.
  assert (getitem (_config self) "game_mechanics" = Returns (Dict gm)) as ->
    by (apply getitem_Returns; eauto).
  assert (getitem (Dict gm) "elixir" = Returns elixir) as E
    by (apply getitem_Returns; eauto).
  cbn [mbind result_bind]. rewrite E. cbn [mbind result_bind].
  intros H. raising H; try done;
  match goal with
  | H : exact_seconds ?x ?p = Raises _ |- _ =>
      by apply (exact_seconds_Raises x p)
  end.
Qed.

(** The file [untimed] is validated and has no timing. *)
Lemma elixir_timing_after_validation_witness :
  KeyError "exact_seconds_per_elixir" = TypeError
  \/ KeyError "exact_seconds_per_elixir" = KeyError "exact_seconds_per_elixir".
Proof.
  apply (elixir_timing_after_validation
           (mkConfigLoader "overlay.json" untimed)); reflexivity.
Defined.

Lemma exact_seconds_Returns (elixir : value) (phase : string) (v : value) :
  exact_seconds elixir phase = Returns v
  <-> exists phases timing,
        elixir = Dict phases /\ phases !! phase = Some (Dict timing)
        /\ timing !! "exact_seconds_per_elixir" = Some v.
Proof.
  unfold exact_seconds. rewrite bind_Returns. split.
  - intros (t & (phases & -> & Hp)%getitem_Returns
              & (timing & -> & Ht)%getitem_Returns). eauto.
  - intros (phases & timing & -> & Hp & Ht). exists (Dict timing).
    split; apply getitem_Returns; eauto.
Qed.

(** X20: [get_elixir_timing] returns a timing exactly when the file holds
    an object at "game_mechanics" / "elixir" whose three phase entries are
    objects with an "exact_seconds_per_elixir" entry, and the timing
    consists of those three values, of whatever type. *)
Theorem elixir_timing_reads_config (self : ConfigLoader)
    (timing : ElixirTiming) :
  get_elixir_timing self = Returns timing
  <-> exists top game_mechanics phases single double triple,
        _config self = Dict top
        /\ top !! "game_mechanics" = Some (Dict game_mechanics)
        /\ game_mechanics !! "elixir" = Some (Dict phases)
        /\ phases !! "single_elixir" = Some (Dict single)
        /\ phases !! "double_elixir" = Some (Dict double)
        /\ phases !! "triple_elixir" = Some (Dict triple)
        /\ single !! "exact_seconds_per_elixir"
           = Some (single_seconds_per_elixir timing)
        /\ double !! "exact_seconds_per_elixir"
           = Some (double_seconds_per_elixir timing)
        /\ triple !! "exact_seconds_per_elixir"
           = Some (triple_seconds_per_elixir timing).
Proof.
  unfold get_elixir_timing. split.
  - intros H.
    apply bind_Returns in H as (gm & (top & Htop & Hgm)%getitem_Returns & H).
    apply bind_Returns in H as (elixir & (g & -> & He)%getitem_Returns & H).
    apply bind_Returns in H
      as (s & (phases & ts & -> & Hs & Hsv)%exact_seconds_Returns & H).
    apply bind_Returns in H
      as (d & (phases' & td & [= <-] & Hd & Hdv)%exact_seconds_Returns & H).
    apply bind_Returns in H
      as (t & (phases' & tt & [= <-] & Ht & Htv)%exact_seconds_Returns & H).
    injection H as <-. simpl. exists top, g, phases, ts, td, tt. done.
  - intros (top & g & phases & ts & td & tt & Htop & Hg & He & Hs & Hd & Ht
            & Hsv & Hdv & Htv).
    rewrite Htop. simpl. rewrite Hg. simpl. rewrite He.
    cbn [mbind result_bind].
    rewrite (proj2 (exact_seconds_Returns (Dict phases) "single_elixir" _))
      by eauto.
    rewrite (proj2 (exact_seconds_Returns (Dict phases) "double_elixir" _))
      by eauto.
    rewrite (proj2 (exact_seconds_Returns (Dict phases) "triple_elixir" _))
      by eauto.
    simpl. by destruct timing.
Qed.

(** X21: the constructor fails fast: it returns a loader exactly for an
    existing file whose content [_validate_schema] accepts, and the loader
    holds that content; a missing file is a [FileNotFoundError]. *)
Theorem loader_is_validated (files : gmap string value) (path : string) :
  (forall self,
     __init__ files path = Returns self
     <-> config_path self = path
         /\ files !! path = Some (_config self)
         /\ _validate_schema self = Returns tt)
  /\ (files !! path = None -> __init__ files path = Raises FileNotFoundError).
Proof.
  unfold __init__, _load_config. split.
  - intros self. destruct (files !! path) as [config|]; simpl.
    + destruct (_validate_schema _) as [[]|e] eqn:E; simpl.
      * split.
        -- intros [= <-]. done.
        -- destruct self as [p c]. simpl. intros (-> & [= ->] & _). done.
      * split; [done|]. destruct self as [p c]. simpl.
        intros (-> & [= ->] & H). congruence.
    + split; [done|]. by intros (_ & ? & _).
  - by intros ->.
Qed.

(** No file at the path. *)
Lemma loader_is_validated_witness :
  __init__ {[ "overlay.json"%string := complete ]} "missing.json"
  = Raises FileNotFoundError.
Proof.
  apply (proj2 (loader_is_validated
                  {[ "overlay.json"%string := complete ]} "missing.json")).
  reflexivity.
Defined.
End ConfigFacts.
